(** * zaplogger: a shallow embedding of logger.go

    The package is a facade over two external libraries (zap for levelled
    logging, lumberjack for file rotation).  The embedding keeps the shape
    of the Go code: structs are records, [interface{}] is a tagged value,
    pointers are optional heap addresses, and every function of the package
    is a computation over an explicit [World] that can return, panic, exit
    the process or wait on the package lock. *)

From Stdlib Require Import ZArith Strings.String Strings.Byte Bool Lia.
From stdpp Require Import base option list gmap strings.

Local Open Scope string_scope.
Local Open Scope Z_scope.

(** ** Values *)

(** Heap addresses.  A Go pointer [*T] is an [option loc]: [None] is [nil]. *)
Definition loc := positive.
Abbreviation ptr := (option loc).

(** Go's builtin [error], as built by [errors.New]: only the message matters. *)
Definition error := string.
Definition errors_New (msg : string) : error := msg.
Definition error_Error (e : error) : string := e.

(** Values that implement [io.Writer].  The sinks of other packages are
    taken to accept what they are handed and to return; the adapter of this
    package used as the destination of a logger is not among them. *)
Inductive Writer :=
| LumberjackLogger (Filename : string) (MaxSize MaxBackups MaxAge : Z)
                   (Compress : bool)          (* &lumberjack.Logger{...} *)
| OsFile (fd : Z)                             (* *os.File *)
| NullWriterPtr                               (* *NullWriter of this package *)
| ForeignWriter (id : positive).              (* any other implementation *)

Definition os_Stdout : Writer := OsFile 1.

(** [interface{}]: the dynamic type decides the arm of a type switch. *)
Inductive any :=
| AnyNil                                      (* the nil interface *)
| AnyString (s : string)                      (* dynamic type string *)
| AnyWriter (w : Writer)                      (* dynamic type implements io.Writer *)
| AnyInt (n : Z)
| AnyBool (b : bool)
| AnyOther (id : positive).                   (* anything else *)

(** zapcore.Level, an int8 with these values. *)
Inductive Level :=
| DebugLevel | InfoLevel | WarnLevel | ErrorLevel
| DPanicLevel | PanicLevel | FatalLevel.

Definition level_num (l : Level) : Z :=
  match l with
  | DebugLevel => -1 | InfoLevel => 0 | WarnLevel => 1 | ErrorLevel => 2
  | DPanicLevel => 3 | PanicLevel => 4 | FatalLevel => 5
  end.

#[global] Instance Level_eq_dec : EqDecision Level.
Proof. solve_decision. Defined.

(** zapcore.LevelEnabler: an interface with the one method [Enabled].  A
    threshold is a value that has the method; the nil interface is not
    covered. *)
Definition LevelEnabler := Level -> bool.

(** A [zapcore.Level] used as a [LevelEnabler] enables itself and above. *)
Definition Level_Enabled (min : Level) : LevelEnabler :=
  fun l => level_num min <=? level_num l.

Definition zap_DebugLevel : LevelEnabler := Level_Enabled DebugLevel.

(** ** Structs of the package *)

Record LogConfig := mkLogConfig {
  FilenameOrIoWriter : any;
  FileMaxSize : Z;
  FileMaxBackup : Z;
  FileMaxAge : Z;
  FileCompress : bool;
}.

(** The zero value [LogConfig{}]. *)
Definition LogConfig_zero : LogConfig := mkLogConfig AnyNil 0 0 0 false.

Definition set_FilenameOrIoWriter (v : any) (c : LogConfig) : LogConfig :=
  mkLogConfig v (FileMaxSize c) (FileMaxBackup c) (FileMaxAge c) (FileCompress c).
Definition set_FileMaxSize (v : Z) (c : LogConfig) : LogConfig :=
  mkLogConfig (FilenameOrIoWriter c) v (FileMaxBackup c) (FileMaxAge c) (FileCompress c).
Definition set_FileMaxBackup (v : Z) (c : LogConfig) : LogConfig :=
  mkLogConfig (FilenameOrIoWriter c) (FileMaxSize c) v (FileMaxAge c) (FileCompress c).
Definition set_FileMaxAge (v : Z) (c : LogConfig) : LogConfig :=
  mkLogConfig (FilenameOrIoWriter c) (FileMaxSize c) (FileMaxBackup c) v (FileCompress c).

(** The encoder built by [getEncoder]; only its two overridden fields are kept. *)
Inductive TimeEncoder := EpochTimeEncoder | ISO8601TimeEncoder.
Inductive LevelEncoder := LowercaseLevelEncoder | CapitalLevelEncoder.
Inductive Encoder :=
| ConsoleEncoder (EncodeTime : TimeEncoder) (EncodeLevel : LevelEncoder).

(** zapcore.NewCore(enc, ws, enab). *)
Record Core := mkCore {
  core_enc : Encoder;
  core_out : option Writer;
  core_enab : LevelEnabler;
}.

(** zap.Logger with the options this package sets. *)
Record Logger := mkLogger {
  core : Core;
  addCaller : bool;
  callerSkip : nat;
  development : bool;
}.

Record SugaredLogger := mkSugaredLogger { base : Logger }.

Record ZapLogger := mkZapLogger {
  sugarLogger : option SugaredLogger;
  zapLogger : option Logger;
  logWriter : option Writer;
  config : ptr;
}.

(** The zero value that [new(ZapLogger)] allocates. *)
Definition ZapLogger_zero : ZapLogger := mkZapLogger None None None None.

Definition set_sugarLogger (v : option SugaredLogger) (z : ZapLogger) : ZapLogger :=
  mkZapLogger v (zapLogger z) (logWriter z) (config z).
Definition set_zapLogger (v : option Logger) (z : ZapLogger) : ZapLogger :=
  mkZapLogger (sugarLogger z) v (logWriter z) (config z).
Definition set_logWriter (v : option Writer) (z : ZapLogger) : ZapLogger :=
  mkZapLogger (sugarLogger z) (zapLogger z) v (config z).
Definition set_config (v : ptr) (z : ZapLogger) : ZapLogger :=
  mkZapLogger (sugarLogger z) (zapLogger z) (logWriter z) v.

Record ZapLogWriter := mkZapLogWriter { level : string }.

(** ** The world *)

(** sync.RWMutex, as far as one goroutine can observe it. *)
Record RWMutex := mkRWMutex { writer : bool; readers : nat }.

(** What a sink receives for one log call. *)
Record Entry := mkEntry { entry_level : Level; entry_msg : string }.

Record World := mkWorld {
  configs : gmap loc LogConfig;         (* LogConfig structs on the heap *)
  handles : gmap loc ZapLogger;         (* ZapLogger structs on the heap *)
  defaultZapLogger : ptr;               (* package variable *)
  resetLock : RWMutex;                  (* package variable *)
  output : list (Writer * Entry);       (* entries handed to sinks, oldest first *)
}.

(** The state in which the Go runtime starts the package initialisation:
    package variables hold their zero values. *)
Definition World_zero : World :=
  mkWorld ∅ ∅ None (mkRWMutex false 0) [].

Definition with_configs (h : gmap loc LogConfig) (w : World) : World :=
  mkWorld h (handles w) (defaultZapLogger w) (resetLock w) (output w).
Definition with_handles (h : gmap loc ZapLogger) (w : World) : World :=
  mkWorld (configs w) h (defaultZapLogger w) (resetLock w) (output w).
Definition with_defaultZapLogger (p : ptr) (w : World) : World :=
  mkWorld (configs w) (handles w) p (resetLock w) (output w).
Definition with_resetLock (m : RWMutex) (w : World) : World :=
  mkWorld (configs w) (handles w) (defaultZapLogger w) m (output w).
Definition with_output (o : list (Writer * Entry)) (w : World) : World :=
  mkWorld (configs w) (handles w) (defaultZapLogger w) (resetLock w) o.

(** ** Computations *)

Inductive Outcome (A : Type) :=
| Returns (a : A) (w : World)           (* normal return *)
| Panics (msg : string) (w : World)     (* the goroutine panics *)
| Exits (code : Z) (w : World)          (* os.Exit *)
| Blocks (w : World).                   (* waits on resetLock *)
Arguments Returns {A} a w.
Arguments Panics {A} msg w.
Arguments Exits {A} code w.
Arguments Blocks {A} w.

Definition Go (A : Type) : Type := World -> Outcome A.

#[global] Instance Go_ret : MRet Go := fun A a w => Returns a w.
#[global] Instance Go_bind : MBind Go := fun A B k m w =>
  match m w with
  | Returns a w' => k a w'
  | Panics msg w' => Panics msg w'
  | Exits code w' => Exits code w'
  | Blocks w' => Blocks w'
  end.

Definition panic {A} (msg : string) : Go A := fun w => Panics msg w.
Definition os_Exit {A} (code : Z) : Go A := fun w => Exits code w.

(** The world an outcome leaves behind. *)
Definition world_of {A} (o : Outcome A) : World :=
  match o with
  | Returns _ w | Panics _ w | Exits _ w | Blocks w => w
  end.

Definition nil_dereference : string :=
  "runtime error: invalid memory address or nil pointer dereference".

(** *** Heap access *)

(** [&LogConfig{...}] *)
Definition new_LogConfig (c : LogConfig) : Go ptr := fun w =>
  let l := fresh (dom (configs w)) in
  Returns (Some l) (with_configs (<[l := c]> (configs w)) w).

(** [new(ZapLogger)] *)
Definition new_ZapLogger : Go ptr := fun w =>
  let l := fresh (dom (handles w)) in
  Returns (Some l) (with_handles (<[l := ZapLogger_zero]> (handles w)) w).

(** [p.f] for [p : *LogConfig] *)
Definition get_config {A} (p : ptr) (f : LogConfig -> A) : Go A := fun w =>
  match p ≫= (fun l => configs w !! l) with
  | Some c => Returns (f c) w
  | None => Panics nil_dereference w
  end.

(** [p.f = v] for [p : *LogConfig] *)
Definition put_config (p : ptr) (upd : LogConfig -> LogConfig) : Go unit := fun w =>
  match p with
  | Some l =>
      match configs w !! l with
      | Some c => Returns tt (with_configs (<[l := upd c]> (configs w)) w)
      | None => Panics nil_dereference w
      end
  | None => Panics nil_dereference w
  end.

(** [p.f] for [p : *ZapLogger] *)
Definition get_handle {A} (p : ptr) (f : ZapLogger -> A) : Go A := fun w =>
  match p ≫= (fun l => handles w !! l) with
  | Some z => Returns (f z) w
  | None => Panics nil_dereference w
  end.

(** [p.f = v] for [p : *ZapLogger] *)
Definition put_handle (p : ptr) (upd : ZapLogger -> ZapLogger) : Go unit := fun w =>
  match p with
  | Some l =>
      match handles w !! l with
      | Some z => Returns tt (with_handles (<[l := upd z]> (handles w)) w)
      | None => Panics nil_dereference w
      end
  | None => Panics nil_dereference w
  end.

(** *** resetLock *)

Definition Lock : Go unit := fun w =>
  match resetLock w with
  | mkRWMutex false O => Returns tt (with_resetLock (mkRWMutex true 0) w)
  | _ => Blocks w
  end.

Definition Unlock : Go unit := fun w =>
  Returns tt (with_resetLock (mkRWMutex false (readers (resetLock w))) w).

Definition RLock : Go unit := fun w =>
  if writer (resetLock w) then Blocks w
  else Returns tt (with_resetLock (mkRWMutex false (S (readers (resetLock w)))) w).

Definition RUnlock : Go unit := fun w =>
  Returns tt (with_resetLock
    (mkRWMutex (writer (resetLock w)) (Nat.pred (readers (resetLock w)))) w).

(** ** The external libraries *)

(** What the Go standard library and zap's encoder compute is left open:
    formatting of arbitrary values and the byte layout of an encoded entry. *)
Class External := {
  fmt_Sprint : list any -> string;
  fmt_Sprintf : string -> list any -> string;
  Encoder_EncodeEntry : Encoder -> Entry -> list byte;
}.

(** [len] of a slice, a Go [int]. *)
Definition len {A} (l : list A) : Z := Z.of_nat (length l).

(** ** NullWriter (logger.go, lines 265-271) *)

Definition NullWriter_Write (b : list byte) : Go (Z * option error) :=
  mret (len b, None).

(** ** The zap engine *)

(** zap and zapcore are external libraries, absent from the repository.
    Their part in the package's behaviour is written down once, in
    [Logger_log] and [SugaredLogger_log]; the rest of this section only
    builds the values that logger.go passes around. *)

(** The options of [zap.New]. *)
Inductive LoggerOption := AddCaller | AddCallerSkip (n : nat) | Development.

Definition zapcore_AddSync (w : option Writer) : option Writer := w.

Definition zapcore_NewCore (enc : Encoder) (ws : option Writer)
    (enab : LevelEnabler) : Core :=
  mkCore enc ws enab.

Definition apply_option (log : Logger) (o : LoggerOption) : Logger :=
  match o with
  | AddCaller => mkLogger (core log) true (callerSkip log) (development log)
  | AddCallerSkip n =>
      mkLogger (core log) (addCaller log) (callerSkip log + n)%nat (development log)
  | Development => mkLogger (core log) (addCaller log) (callerSkip log) true
  end.

Definition zap_New (c : Core) (opts : list LoggerOption) : Logger :=
  fold_left apply_option opts (mkLogger c false 0%nat false).

Definition Logger_Sugar (log : Logger) : SugaredLogger :=
  mkSugaredLogger (apply_option log (AddCallerSkip 2)).

(** Modelled from the spec: the message of a sugared call, which zap
    computes.  Section 4.2 has the front end accept "free-form arguments or
    printf-style templates": the message is the template alone, the
    formatted template, the single string argument, or [fmt.Sprint] of the
    arguments. *)
Definition getMessage `{External} (template : string) (fmtArgs : list any) : string :=
  match fmtArgs with
  | [] => template
  | _ =>
      if negb (String.eqb template "") then fmt_Sprintf template fmtArgs
      else match fmtArgs with
           | [AnyString str] => str
           | _ => fmt_Sprint fmtArgs
           end
  end.

(** Modelled from the spec: the write of zap's core, "the implicit
    synchronous write performed by the underlying sink" of section 5.  The
    core hands the encoded entry to its sink; the world keeps track of
    every such hand-over.  A [*NullWriter] is this package's own sink and
    runs [NullWriter_Write]; what the other sinks do with the bytes is
    outside the package. *)
Definition Writer_Write `{External} (enc : Encoder) (out : option Writer)
    (e : Entry) : Go unit :=
  match out with
  | None => panic nil_dereference
  | Some w =>
      (fun world => Returns tt (with_output (output world ++ [(w, e)]) world)) ;;
      match w with
      | NullWriterPtr => NullWriter_Write (Encoder_EncodeEntry enc e) ;; mret tt
      | _ => mret tt
      end
  end.

(** Modelled from the spec: one entry through zap's core.  Section 4.2 has
    "a leveled core filtering by a caller-supplied threshold" and the levels
    "fatal-terminates-process, dpanic-escalates-in-development"; section 7
    has "fatal-severity or panic-severity emission" that "intentionally
    terminates/panics the process".  The entry is written when the
    threshold enables its level; then comes the terminal behaviour of the
    level. *)
Definition Logger_log `{External} (log : Logger) (lvl : Level) (msg : string)
    : Go unit :=
  (if core_enab (core log) lvl
   then Writer_Write (core_enc (core log)) (core_out (core log)) (mkEntry lvl msg)
   else mret tt) ;;
  match lvl with
  | PanicLevel => panic msg
  | FatalLevel => os_Exit 1
  | DPanicLevel => if development log then panic msg else mret tt
  | _ => mret tt
  end.

(** Modelled from the spec: the one function behind the methods of
    [*zap.SugaredLogger].  Levels below dpanic are dropped by the threshold
    of section 4.2 before a message is built; a nil receiver cannot be
    dereferenced. *)
Definition SugaredLogger_log `{External} (s : option SugaredLogger) (lvl : Level)
    (template : string) (fmtArgs : list any) : Go unit :=
  match s with
  | None => panic nil_dereference
  | Some s =>
      if (level_num lvl <? level_num DPanicLevel)
         && negb (core_enab (core (base s)) lvl)
      then mret tt
      else Logger_log (base s) lvl (getMessage template fmtArgs)
  end.

Section Sugar.
Context `{External}.
Variable s : option SugaredLogger.

Definition SugaredLogger_Debug args := SugaredLogger_log s DebugLevel "" args.
Definition SugaredLogger_Debugf template args := SugaredLogger_log s DebugLevel template args.
Definition SugaredLogger_Info args := SugaredLogger_log s InfoLevel "" args.
Definition SugaredLogger_Infof template args := SugaredLogger_log s InfoLevel template args.
Definition SugaredLogger_Warn args := SugaredLogger_log s WarnLevel "" args.
Definition SugaredLogger_Warnf template args := SugaredLogger_log s WarnLevel template args.
Definition SugaredLogger_Error args := SugaredLogger_log s ErrorLevel "" args.
Definition SugaredLogger_Errorf template args := SugaredLogger_log s ErrorLevel template args.
Definition SugaredLogger_DPanic args := SugaredLogger_log s DPanicLevel "" args.
Definition SugaredLogger_DPanicf template args := SugaredLogger_log s DPanicLevel template args.
Definition SugaredLogger_Panic args := SugaredLogger_log s PanicLevel "" args.
Definition SugaredLogger_Fatal args := SugaredLogger_log s FatalLevel "" args.
Definition SugaredLogger_Fatalf template args := SugaredLogger_log s FatalLevel template args.
End Sugar.

(** ** logger.go *)

(** Lines 25-31: the accessors of a handle. *)
Definition ZapLogger_GetSugarLogger (z : ptr) : Go (option SugaredLogger) :=
  get_handle z sugarLogger.

Definition ZapLogger_GetZapLogger (z : ptr) : Go (option Logger) :=
  get_handle z zapLogger.

(** Lines 84-98.  The result is Go's pair (io.Writer, error). *)
Definition getWriter (config : ptr) : Go (option Writer * option error) :=
  dest ← get_config config FilenameOrIoWriter;
  match dest with
  | AnyString filename =>
      MaxSize ← get_config config FileMaxSize;
      MaxBackups ← get_config config FileMaxBackup;
      MaxAge ← get_config config FileMaxAge;
      Compress ← get_config config FileCompress;
      mret (Some (LumberjackLogger filename MaxSize MaxBackups MaxAge Compress), None)
  | AnyWriter w => mret (Some w, None)
  | _ => mret (None, Some (errors_New "string / io.Writer only"))
  end.

(** Lines 100-105. *)
Definition getEncoder : Encoder :=
  ConsoleEncoder ISO8601TimeEncoder CapitalLevelEncoder.

(** Lines 41-72, in the three blocks of the function body. *)

(** Lines 42-54: defaults of the thresholds, then the new handle. *)
Definition NewZapLogger_prepare (config : ptr) : Go ptr :=
  age ← get_config config FileMaxAge;
  (if age <=? 0 then put_config config (set_FileMaxAge 30) else mret tt) ;;
  backup ← get_config config FileMaxBackup;
  (if backup <=? 0 then put_config config (set_FileMaxBackup 3) else mret tt) ;;
  size ← get_config config FileMaxSize;
  (if size <=? 0 then put_config config (set_FileMaxSize 100) else mret tt) ;;
  zl ← new_ZapLogger;
  put_handle zl (set_config config) ;;
  mret zl.

(** Lines 59-63: the body of [if err != nil]. *)
Definition NewZapLogger_fallback (config zl : ptr) : Go unit :=
  put_config config (set_FilenameOrIoWriter (AnyWriter os_Stdout)) ;;
  '(w, err) ← getWriter config;
  put_handle zl (set_logWriter w) ;;
  match err with
  | Some e => panic ("Fail to enable default logWriter: " +:+ error_Error e)
  | None => mret tt
  end.

(** Lines 55-64: the destination. *)
Definition NewZapLogger_resolve (config zl : ptr) : Go unit :=
  '(w, err) ← getWriter config;
  put_handle zl (set_logWriter w) ;;
  match err with
  | Some _ => NewZapLogger_fallback config zl
  | None => mret tt
  end.

(** Lines 66-70: encoder, core and the two front ends. *)
Definition NewZapLogger_build (zl : ptr) (logLevel : LevelEnabler) : Go unit :=
  let encoder := getEncoder in
  lw ← get_handle zl logWriter;
  let core := zapcore_NewCore encoder (zapcore_AddSync lw) logLevel in
  put_handle zl (set_zapLogger (Some (zap_New core [AddCaller; AddCallerSkip 1]))) ;;
  zlog ← get_handle zl zapLogger;
  match zlog with
  | Some l => put_handle zl (set_sugarLogger (Some (Logger_Sugar l)))
  | None => panic nil_dereference
  end.

Definition NewZapLogger (config : ptr) (logLevel : LevelEnabler) : Go ptr :=
  zl ← NewZapLogger_prepare config;
  NewZapLogger_resolve config zl ;;
  NewZapLogger_build zl logLevel ;;
  mret zl.

(** Reading and writing the package variable. *)
Definition read_defaultZapLogger : Go ptr := fun w =>
  Returns (defaultZapLogger w) w.

Definition write_defaultZapLogger (p : ptr) : Go unit := fun w =>
  Returns tt (with_defaultZapLogger p w).

(** Lines 74-78. *)
Definition InitDefaultLogger (config : ptr) (logLevel : LevelEnabler) : Go unit :=
  Lock ;;
  zl ← NewZapLogger config logLevel;
  write_defaultZapLogger zl ;;
  Unlock.

(** Lines 80-82: run by the Go runtime before any importer's code. *)
Definition init : Go unit :=
  config ← new_LogConfig LogConfig_zero;
  InitDefaultLogger config zap_DebugLevel.

(** Lines 107-153: the methods of a handle. *)
Section Methods.
Context `{External}.
Variable z : ptr.

Definition ZapLogger_Debug (args : list any) : Go unit :=
  s ← get_handle z sugarLogger; SugaredLogger_Debug s args.
Definition ZapLogger_Debugf (template : string) (args : list any) : Go unit :=
  s ← get_handle z sugarLogger; SugaredLogger_Debugf s template args.
Definition ZapLogger_Info (args : list any) : Go unit :=
  s ← get_handle z sugarLogger; SugaredLogger_Info s args.
Definition ZapLogger_Infof (template : string) (args : list any) : Go unit :=
  s ← get_handle z sugarLogger; SugaredLogger_Infof s template args.
Definition ZapLogger_Warn (args : list any) : Go unit :=
  s ← get_handle z sugarLogger; SugaredLogger_Warn s args.
Definition ZapLogger_Warnf (template : string) (args : list any) : Go unit :=
  s ← get_handle z sugarLogger; SugaredLogger_Warnf s template args.
Definition ZapLogger_Fatal (args : list any) : Go unit :=
  s ← get_handle z sugarLogger; SugaredLogger_Fatal s args.
Definition ZapLogger_Fatalf (template : string) (args : list any) : Go unit :=
  s ← get_handle z sugarLogger; SugaredLogger_Fatalf s template args.
Definition ZapLogger_Error (args : list any) : Go unit :=
  s ← get_handle z sugarLogger; SugaredLogger_Error s args.
Definition ZapLogger_Errorf (template : string) (args : list any) : Go unit :=
  s ← get_handle z sugarLogger; SugaredLogger_Errorf s template args.
Definition ZapLogger_DPanic (args : list any) : Go unit :=
  s ← get_handle z sugarLogger; SugaredLogger_DPanic s args.
Definition ZapLogger_DPanicf (template : string) (args : list any) : Go unit :=
  s ← get_handle z sugarLogger; SugaredLogger_DPanicf s template args.
End Methods.

(** The expression [defaultZapLogger.sugarLogger]. *)
Definition defaultZapLogger_sugarLogger : Go (option SugaredLogger) :=
  d ← read_defaultZapLogger; get_handle d sugarLogger.

(** Lines 155-225: the package-level functions. *)
Section Globals.
Context `{External}.

Definition Debug (args : list any) : Go unit :=
  RLock ;;
  (s ← defaultZapLogger_sugarLogger; SugaredLogger_Debug s args) ;;
  RUnlock.
Definition Debugf (template : string) (args : list any) : Go unit :=
  RLock ;;
  (s ← defaultZapLogger_sugarLogger; SugaredLogger_Debugf s template args) ;;
  RUnlock.
Definition Info (args : list any) : Go unit :=
  RLock ;;
  (s ← defaultZapLogger_sugarLogger; SugaredLogger_Info s args) ;;
  RUnlock.
Definition Infof (template : string) (args : list any) : Go unit :=
  RLock ;;
  (s ← defaultZapLogger_sugarLogger; SugaredLogger_Infof s template args) ;;
  RUnlock.
Definition Warn (args : list any) : Go unit :=
  RLock ;;
  (s ← defaultZapLogger_sugarLogger; SugaredLogger_Warn s args) ;;
  RUnlock.
Definition Warnf (template : string) (args : list any) : Go unit :=
  RLock ;;
  (s ← defaultZapLogger_sugarLogger; SugaredLogger_Warnf s template args) ;;
  RUnlock.
Definition Fatal (args : list any) : Go unit :=
  RLock ;;
  (s ← defaultZapLogger_sugarLogger; SugaredLogger_Fatal s args) ;;
  RUnlock.
Definition Fatalf (template : string) (args : list any) : Go unit :=
  RLock ;;
  (s ← defaultZapLogger_sugarLogger; SugaredLogger_Fatalf s template args) ;;
  RUnlock.
Definition Error (args : list any) : Go unit :=
  RLock ;;
  (s ← defaultZapLogger_sugarLogger; SugaredLogger_Error s args) ;;
  RUnlock.
Definition Errorf (template : string) (args : list any) : Go unit :=
  RLock ;;
  (s ← defaultZapLogger_sugarLogger; SugaredLogger_Errorf s template args) ;;
  RUnlock.
Definition DPanic (args : list any) : Go unit :=
  RLock ;;
  (s ← defaultZapLogger_sugarLogger; SugaredLogger_DPanic s args) ;;
  RUnlock.
Definition DPanicf (template : string) (args : list any) : Go unit :=
  RLock ;;
  (s ← defaultZapLogger_sugarLogger; SugaredLogger_DPanicf s template args) ;;
  RUnlock.
End Globals.

(** Lines 227-233: read without the lock. *)
Definition GetDefaultZapLogger : Go (option Logger) :=
  d ← read_defaultZapLogger; get_handle d zapLogger.

Definition GetDefaultSugarLogger : Go (option SugaredLogger) :=
  d ← read_defaultZapLogger; get_handle d sugarLogger.

(** Lines 235-263.  The adapter only holds its label, so it is kept by
    value. *)
Definition NewZapLogWriter (level : string) : ZapLogWriter :=
  mkZapLogWriter level.

(** One [case] line of a [switch] on a string. *)
Definition case_of (s : string) (labels : list string) : bool :=
  existsb (String.eqb s) labels.

Definition ZapLogWriter_Write `{External} (z : ZapLogWriter) (b : list byte)
    : Go (Z * option error) :=
  RLock ;;
  (if case_of (level z) ["debug"; "DEBUG"] then
     s ← defaultZapLogger_sugarLogger;
     SugaredLogger_Debug s [AnyString (string_of_list_byte b)]
   else if case_of (level z) ["info"; "INFO"; ""] then
     s ← defaultZapLogger_sugarLogger;
     SugaredLogger_Info s [AnyString (string_of_list_byte b)]
   else if case_of (level z) ["warn"; "WARN"] then
     s ← defaultZapLogger_sugarLogger;
     SugaredLogger_Warn s [AnyString (string_of_list_byte b)]
   else if case_of (level z) ["error"; "ERROR"] then
     s ← defaultZapLogger_sugarLogger;
     SugaredLogger_Error s [AnyString (string_of_list_byte b)]
   else if case_of (level z) ["panic"; "PANIC"] then
     s ← defaultZapLogger_sugarLogger;
     SugaredLogger_Panic s [AnyString (string_of_list_byte b)]
   else if case_of (level z) ["fatal"; "FATAL"] then
     s ← defaultZapLogger_sugarLogger;
     SugaredLogger_Fatal s [AnyString (string_of_list_byte b)]
   else
     s ← defaultZapLogger_sugarLogger;
     SugaredLogger_Info s [AnyString (string_of_list_byte b)]) ;;
  RUnlock ;;
  mret (len b, None).

(** ** Running the package *)

(** The world in which importers of the package start: the Go runtime has
    run [init] on the zero world. *)
Definition boot : World := world_of (init World_zero).

(** The twelve emission entry points, by name; each exists once as a
    package-level function and once as a method of a handle. *)
Inductive EmitFn :=
| FnDebug | FnDebugf | FnInfo | FnInfof | FnWarn | FnWarnf
| FnFatal | FnFatalf | FnError | FnErrorf | FnDPanic | FnDPanicf.

Definition fn_level (f : EmitFn) : Level :=
  match f with
  | FnDebug | FnDebugf => DebugLevel
  | FnInfo | FnInfof => InfoLevel
  | FnWarn | FnWarnf => WarnLevel
  | FnFatal | FnFatalf => FatalLevel
  | FnError | FnErrorf => ErrorLevel
  | FnDPanic | FnDPanicf => DPanicLevel
  end.

Definition fn_formatted (f : EmitFn) : bool :=
  match f with
  | FnDebugf | FnInfof | FnWarnf | FnFatalf | FnErrorf | FnDPanicf => true
  | _ => false
  end.

(** A call [F(args...)] or [F(template, args...)] of a package-level
    function; the plain functions have no template parameter. *)
Definition global_call `{External} (f : EmitFn) (template : string)
    (args : list any) : Go unit :=
  match f with
  | FnDebug => Debug args
  | FnDebugf => Debugf template args
  | FnInfo => Info args
  | FnInfof => Infof template args
  | FnWarn => Warn args
  | FnWarnf => Warnf template args
  | FnFatal => Fatal args
  | FnFatalf => Fatalf template args
  | FnError => Error args
  | FnErrorf => Errorf template args
  | FnDPanic => DPanic args
  | FnDPanicf => DPanicf template args
  end.

(** The same call on a handle [z]. *)
Definition method_call `{External} (f : EmitFn) (z : ptr) (template : string)
    (args : list any) : Go unit :=
  match f with
  | FnDebug => ZapLogger_Debug z args
  | FnDebugf => ZapLogger_Debugf z template args
  | FnInfo => ZapLogger_Info z args
  | FnInfof => ZapLogger_Infof z template args
  | FnWarn => ZapLogger_Warn z args
  | FnWarnf => ZapLogger_Warnf z template args
  | FnFatal => ZapLogger_Fatal z args
  | FnFatalf => ZapLogger_Fatalf z template args
  | FnError => ZapLogger_Error z args
  | FnErrorf => ZapLogger_Errorf z template args
  | FnDPanic => ZapLogger_DPanic z args
  | FnDPanicf => ZapLogger_DPanicf z template args
  end.

(** What a program that imports the package can do to the world: call the
    exported functions and methods, and allocate or assign its own
    [LogConfig] structs.  The fields of a [ZapLogger] are unexported, so no
    importer writes to a handle. *)
Inductive Call :=
| CallNewZapLogger (config : ptr) (logLevel : LevelEnabler)
| CallInitDefaultLogger (config : ptr) (logLevel : LevelEnabler)
| CallGlobal (f : EmitFn) (template : string) (args : list any)
| CallMethod (f : EmitFn) (z : ptr) (template : string) (args : list any)
| CallGetDefaultZapLogger
| CallGetDefaultSugarLogger
| CallGetZapLogger (z : ptr)
| CallGetSugarLogger (z : ptr)
| CallWrite (z : ZapLogWriter) (b : list byte)
| CallNullWrite (b : list byte)
| CallerNewConfig (c : LogConfig)
| CallerAssignConfig (p : ptr) (c : LogConfig).

Definition run_call `{External} (c : Call) : Go unit :=
  match c with
  | CallNewZapLogger config logLevel => NewZapLogger config logLevel ;; mret tt
  | CallInitDefaultLogger config logLevel => InitDefaultLogger config logLevel
  | CallGlobal f template args => global_call f template args
  | CallMethod f z template args => method_call f z template args
  | CallGetDefaultZapLogger => GetDefaultZapLogger ;; mret tt
  | CallGetDefaultSugarLogger => GetDefaultSugarLogger ;; mret tt
  | CallGetZapLogger z => ZapLogger_GetZapLogger z ;; mret tt
  | CallGetSugarLogger z => ZapLogger_GetSugarLogger z ;; mret tt
  | CallWrite z b => ZapLogWriter_Write z b ;; mret tt
  | CallNullWrite b => NullWriter_Write b ;; mret tt
  | CallerNewConfig c => new_LogConfig c ;; mret tt
  | CallerAssignConfig p c => put_config p (fun _ => c)
  end.

(** The worlds a process can be in after start-up.  A call that panics may
    be recovered by its caller, so the world it leaves behind counts too. *)
Inductive reachable `{External} : World -> Prop :=
| reachable_boot : reachable boot
| reachable_call c w : reachable w -> reachable (world_of (run_call c w)).

(** How a call ends, without the world. *)
Inductive Ending := Returned | Panicked (msg : string) | Exited (code : Z) | Blocked.

Definition ending {A} (o : Outcome A) : Ending :=
  match o with
  | Returns _ _ => Returned
  | Panics msg _ => Panicked msg
  | Exits code _ => Exited code
  | Blocks _ => Blocked
  end.

(** The struct after lines 42-52. *)
Definition default_thresholds (c : LogConfig) : LogConfig :=
  let c := if FileMaxAge c <=? 0 then set_FileMaxAge 30 c else c in
  let c := if FileMaxBackup c <=? 0 then set_FileMaxBackup 3 c else c in
  if FileMaxSize c <=? 0 then set_FileMaxSize 100 c else c.

(** The handle that lines 66-70 complete, given its sink, threshold and
    configuration pointer. *)
Definition built_logger (wr : Writer) (logLevel : LevelEnabler) : Logger :=
  zap_New (zapcore_NewCore getEncoder (Some wr) logLevel) [AddCaller; AddCallerSkip 1].

Definition built_handle (wr : Writer) (logLevel : LevelEnabler) (config : ptr)
    : ZapLogger :=
  mkZapLogger (Some (Logger_Sugar (built_logger wr logLevel)))
              (Some (built_logger wr logLevel)) (Some wr) config.

(** Whether the type switch of [getWriter] finds an arm for the destination. *)
Definition dest_resolves (c : LogConfig) : bool :=
  match FilenameOrIoWriter c with
  | AnyString _ | AnyWriter _ => true
  | _ => false
  end.

(** The caller's struct after the constructor returned. *)
Definition constructed_config (c : LogConfig) : LogConfig :=
  let c := default_thresholds c in
  if dest_resolves c then c else set_FilenameOrIoWriter (AnyWriter os_Stdout) c.

(** The sink of the handle the constructor returned. *)
Definition constructed_writer (c : LogConfig) : Writer :=
  let d := default_thresholds c in
  match FilenameOrIoWriter d with
  | AnyString filename =>
      LumberjackLogger filename (FileMaxSize d) (FileMaxBackup d) (FileMaxAge d)
        (FileCompress d)
  | AnyWriter wr => wr
  | _ => os_Stdout
  end.


(** The level of the arm that the switch of [Write] takes for a label. *)
Definition write_arm (label : string) : Level :=
  if case_of label ["debug"; "DEBUG"] then DebugLevel
  else if case_of label ["info"; "INFO"; ""] then InfoLevel
  else if case_of label ["warn"; "WARN"] then WarnLevel
  else if case_of label ["error"; "ERROR"] then ErrorLevel
  else if case_of label ["panic"; "PANIC"] then PanicLevel
  else if case_of label ["fatal"; "FATAL"] then FatalLevel
  else InfoLevel.

(** The global slot points to a handle that the constructor completed. *)
Definition handle_ready (w : World) : Prop :=
  exists l wr enab cfg,
    defaultZapLogger w = Some l /\
    handles w !! l = Some (built_handle wr enab cfg).

(** An outcome with its world changed. *)
Definition on_world {A} (g : World -> World) (o : Outcome A) : Outcome A :=
  match o with
  | Returns a w => Returns a (g w)
  | Panics msg w => Panics msg (g w)
  | Exits code w => Exits code (g w)
  | Blocks w => Blocks (g w)
  end.

(** A read lock taken on a mutex no writer holds. *)
Definition read_locked (w : World) : World :=
  with_resetLock (mkRWMutex false (S (readers (resetLock w)))) w.

(** What a computation that only logs leaves alone: both heaps and the
    global slot. *)
Definition frame (w w' : World) : Prop :=
  configs w' = configs w /\ handles w' = handles w /\
  defaultZapLogger w' = defaultZapLogger w.

Definition keeps {A} (m : Go A) : Prop := forall w, frame w (world_of (m w)).


(** An instance of the external functions, for concrete runs. *)
Definition plain_External : External :=
  {| fmt_Sprint := fun _ => ""; fmt_Sprintf := fun t _ => t;
     Encoder_EncodeEntry := fun _ e => list_byte_of_string (entry_msg e) |}.

(** A caller-owned struct and the world that holds it, for concrete runs:
    the destination is an integer, two thresholds are not positive. *)
Definition example_config : LogConfig := mkLogConfig (AnyInt 7) 0 (-2) 14 true.

Definition example_world : World :=
  world_of (run_call (H := plain_External) (CallerNewConfig example_config) boot).


(** The levels that have a pair of emission functions. *)
Definition emission_levels : list Level :=
  [DebugLevel; InfoLevel; WarnLevel; ErrorLevel; FatalLevel; DPanicLevel].

(** The worlds of a run in which every call so far has returned. *)
Inductive quiet `{External} : World -> Prop :=
| quiet_boot : quiet boot
| quiet_call c w :
    quiet w -> ending (run_call c w) = Returned ->
    quiet (world_of (run_call c w)).

(** * Properties *)

(** ** Stepping through computations *)

Lemma bind_Returns {A B} (m : Go A) (k : A -> Go B) w a w' :
  m w = Returns a w' -> (m ≫= k) w = k a w'.
Proof. intros Hm. unfold mbind, Go_bind. now rewrite Hm. Qed.

Lemma bind_Panics {A B} (m : Go A) (k : A -> Go B) w msg w' :
  m w = Panics msg w' -> (m ≫= k) w = Panics msg w'.
Proof. intros Hm. unfold mbind, Go_bind. now rewrite Hm. Qed.

Lemma get_config_Some {A} (f : LogConfig -> A) w p c :
  configs w !! p = Some c -> get_config (Some p) f w = Returns (f c) w.
Proof. intros Hp. unfold get_config. simpl. now rewrite Hp. Qed.

Lemma put_config_Some upd w p c :
  configs w !! p = Some c ->
  put_config (Some p) upd w
  = Returns tt (with_configs (<[p := upd c]> (configs w)) w).
Proof. intros Hp. unfold put_config. now rewrite Hp. Qed.

Lemma get_handle_Some {A} (f : ZapLogger -> A) w l z :
  handles w !! l = Some z -> get_handle (Some l) f w = Returns (f z) w.
Proof. intros Hl. unfold get_handle. simpl. now rewrite Hl. Qed.

Lemma put_handle_Some upd w l z :
  handles w !! l = Some z ->
  put_handle (Some l) upd w
  = Returns tt (with_handles (<[l := upd z]> (handles w)) w).
Proof. intros Hl. unfold put_handle. now rewrite Hl. Qed.

Lemma fresh_handle_None (w : World) : handles w !! fresh (dom (handles w)) = None.
Proof. apply not_elem_of_dom, is_fresh. Qed.

Ltac go_unfold :=
  unfold mbind, Go_bind, mret, Go_ret, panic, os_Exit,
    get_config, put_config, get_handle, put_handle, new_ZapLogger, new_LogConfig,
    with_configs, with_handles, with_defaultZapLogger, with_resetLock, with_output
    in *.

Ltac go_simpl :=
  repeat (simpl in *;
          rewrite ?lookup_insert_eq, ?insert_insert_eq, ?fresh_handle_None in * ).

Lemma getWriter_Some w p c :
  configs w !! p = Some c ->
  getWriter (Some p) w =
  Returns
    match FilenameOrIoWriter c with
    | AnyString filename =>
        (Some (LumberjackLogger filename (FileMaxSize c) (FileMaxBackup c)
                 (FileMaxAge c) (FileCompress c)), None)
    | AnyWriter wr => (Some wr, None)
    | _ => (None, Some (errors_New "string / io.Writer only"))
    end w.
Proof.
  intros Hp. unfold getWriter. go_unfold. simpl. rewrite Hp.
  destruct (FilenameOrIoWriter c); simpl; rewrite ?Hp; reflexivity.
Qed.

Lemma NewZapLogger_prepare_Some w p c :
  configs w !! p = Some c ->
  NewZapLogger_prepare (Some p) w =
  Returns (Some (fresh (dom (handles w))))
    (mkWorld (<[p := default_thresholds c]> (configs w))
       (<[fresh (dom (handles w)) := set_config (Some p) ZapLogger_zero]> (handles w))
       (defaultZapLogger w) (resetLock w) (output w)).
Proof.
  intros Hp. unfold NewZapLogger_prepare, default_thresholds. go_unfold.
  destruct (FileMaxAge c <=? 0) eqn:Ea, (FileMaxBackup c <=? 0) eqn:Eb,
    (FileMaxSize c <=? 0) eqn:Es;
    repeat (go_simpl; rewrite ?Hp, ?Ea, ?Eb, ?Es);
    rewrite ?(insert_id _ _ _ Hp); reflexivity.
Qed.

Lemma default_thresholds_dest c :
  FilenameOrIoWriter (default_thresholds c) = FilenameOrIoWriter c.
Proof.
  unfold default_thresholds.
  destruct (FileMaxAge c <=? 0), (FileMaxBackup c <=? 0), (FileMaxSize c <=? 0);
    simpl; repeat (destruct (_ <=? 0); simpl); reflexivity.
Qed.

Lemma NewZapLogger_Some w p c logLevel :
  configs w !! p = Some c ->
  NewZapLogger (Some p) logLevel w =
  Returns (Some (fresh (dom (handles w))))
    (mkWorld (<[p := constructed_config c]> (configs w))
       (<[fresh (dom (handles w)) :=
            built_handle (constructed_writer c) logLevel (Some p)]> (handles w))
       (defaultZapLogger w) (resetLock w) (output w)).
Proof.
  intros Hp. unfold NewZapLogger.
  rewrite (bind_Returns _ _ _ _ _ (NewZapLogger_prepare_Some w p c Hp)).
  unfold NewZapLogger_resolve, NewZapLogger_fallback, NewZapLogger_build,
    getWriter, constructed_config, constructed_writer, dest_resolves, built_handle,
    built_logger.
  go_unfold. go_simpl.
  rewrite default_thresholds_dest.
  destruct (FilenameOrIoWriter c) eqn:Ed; go_simpl; reflexivity.
Qed.

(** ** The engine on a completed handle *)



Lemma method_call_log `{External} f z template args :
  method_call f z template args =
  (s ← get_handle z sugarLogger;
   SugaredLogger_log s (fn_level f) (if fn_formatted f then template else "") args).
Proof. destruct f; reflexivity. Qed.

Lemma global_call_log `{External} f template args :
  global_call f template args =
  (RLock ;;
   (s ← defaultZapLogger_sugarLogger;
    SugaredLogger_log s (fn_level f) (if fn_formatted f then template else "") args) ;;
   RUnlock).
Proof. destruct f; reflexivity. Qed.

Lemma SugaredLogger_log_lock `{External} s lvl template args m w :
  SugaredLogger_log s lvl template args (with_resetLock m w)
  = on_world (with_resetLock m) (SugaredLogger_log s lvl template args w).
Proof.
  unfold SugaredLogger_log, Logger_log, Writer_Write, NullWriter_Write.
  go_unfold. destruct s as [s|]; [|reflexivity].
  destruct (core_enab (core (base s)) lvl), lvl, (core_out (core (base s))) as [[]|],
    (development (base s)); reflexivity.
Qed.

Lemma SugaredLogger_log_keeps_lock `{External} s lvl template args w :
  resetLock (world_of (SugaredLogger_log s lvl template args w)) = resetLock w.
Proof.
  unfold SugaredLogger_log, Logger_log, Writer_Write, NullWriter_Write.
  go_unfold. destruct s as [s|]; [|reflexivity].
  destruct (core_enab (core (base s)) lvl), lvl, (core_out (core (base s))) as [[]|],
    (development (base s)); reflexivity.
Qed.

Lemma method_call_lock `{External} f z template args m w :
  method_call f z template args (with_resetLock m w)
  = on_world (with_resetLock m) (method_call f z template args w).
Proof.
  rewrite method_call_log. unfold mbind, Go_bind, get_handle. simpl.
  destruct (z ≫= _) as [zl|]; [|reflexivity].
  apply SugaredLogger_log_lock.
Qed.

Lemma method_call_keeps_lock `{External} f z template args w :
  resetLock (world_of (method_call f z template args w)) = resetLock w.
Proof.
  rewrite method_call_log. unfold mbind, Go_bind, get_handle. simpl.
  destruct (z ≫= _) as [zl|]; [|reflexivity].
  apply SugaredLogger_log_keeps_lock.
Qed.

Lemma global_call_bracket `{External} f template args w :
  global_call f template args w =
  (RLock ;;
   (d ← read_defaultZapLogger; method_call f d template args) ;;
   RUnlock) w.
Proof.
  rewrite global_call_log.
  unfold mbind, Go_bind, defaultZapLogger_sugarLogger, read_defaultZapLogger.
  destruct (RLock w) as [[] w1| | |]; try reflexivity.
  rewrite method_call_log. unfold mbind, Go_bind.
  destruct (get_handle (defaultZapLogger w1) sugarLogger w1); reflexivity.
Qed.

Lemma global_call_run `{External} f template args w :
  writer (resetLock w) = false ->
  global_call f template args w =
  match method_call f (defaultZapLogger w) template args w with
  | Returns _ w' => Returns tt w'
  | o => on_world read_locked o
  end.
Proof.
  intros Hw. rewrite global_call_bracket.
  unfold mbind at 1 2. unfold Go_bind at 1 2. unfold RLock. rewrite Hw.
  unfold mbind, Go_bind, read_defaultZapLogger. simpl.
  rewrite method_call_lock.
  pose proof (method_call_keeps_lock f (defaultZapLogger w) template args w) as Hk.
  destruct (method_call f (defaultZapLogger w) template args w) as [[] w'| | |];
    simpl in *; unfold read_locked; rewrite ?Hk; try reflexivity.
  unfold RUnlock. simpl. f_equal.
  destruct w' as [cf hs d lk o]; simpl in *. subst lk.
  unfold with_resetLock; simpl. destruct (resetLock w); simpl in *; now subst.
Qed.

(** ** What logging leaves alone *)

Lemma frame_refl w : frame w w.
Proof. now repeat split. Qed.

Ltac frame_tac := unfold frame; simpl; repeat split; reflexivity.

Lemma frame_trans w1 w2 w3 : frame w1 w2 -> frame w2 w3 -> frame w1 w3.
Proof. unfold frame. intros (?&?&?) (?&?&?). repeat split; congruence. Qed.

Lemma keeps_bind {A B} (m : Go A) (k : A -> Go B) :
  keeps m -> (forall a, keeps (k a)) -> keeps (m ≫= k).
Proof.
  intros Hm Hk w. specialize (Hm w). unfold mbind, Go_bind.
  destruct (m w) as [a w'| | |]; simpl in *; try assumption.
  eapply frame_trans; [exact Hm | apply Hk].
Qed.

Lemma keeps_ret {A} (a : A) : keeps (mret a).
Proof. intros w. apply frame_refl. Qed.

Lemma keeps_panic {A} msg : keeps (@panic A msg).
Proof. intros w. apply frame_refl. Qed.

Lemma keeps_RLock : keeps RLock.
Proof. intros w. unfold RLock. destruct (writer (resetLock w)); frame_tac. Qed.

Lemma keeps_RUnlock : keeps RUnlock.
Proof. intros w. frame_tac. Qed.

Lemma keeps_read_defaultZapLogger : keeps read_defaultZapLogger.
Proof. intros w. apply frame_refl. Qed.

Lemma keeps_get_handle {A} p (f : ZapLogger -> A) : keeps (get_handle p f).
Proof. intros w. unfold get_handle. destruct (p ≫= _); frame_tac. Qed.

Lemma keeps_NullWriter_Write b : keeps (NullWriter_Write b).
Proof. apply keeps_ret. Qed.

Lemma keeps_SugaredLogger_log `{External} s lvl template args :
  keeps (SugaredLogger_log s lvl template args).
Proof.
  intros w. unfold SugaredLogger_log, Logger_log, Writer_Write, NullWriter_Write.
  go_unfold. destruct s as [s|]; [|frame_tac].
  destruct (core_enab (core (base s)) lvl), lvl, (core_out (core (base s))) as [[]|],
    (development (base s)); frame_tac.
Qed.

Create HintDb keeps.
#[local] Hint Resolve keeps_ret keeps_panic keeps_RLock keeps_RUnlock
  keeps_read_defaultZapLogger keeps_get_handle keeps_NullWriter_Write
  keeps_SugaredLogger_log : keeps.

Ltac keeps_tac :=
  repeat first
    [ solve [auto with keeps]
    | apply keeps_bind
    | match goal with
      | |- forall _, _ => intro
      | |- keeps (if ?b then _ else _) => destruct b
      end ].

Lemma keeps_defaultZapLogger_sugarLogger : keeps defaultZapLogger_sugarLogger.
Proof. unfold defaultZapLogger_sugarLogger. keeps_tac. Qed.
#[local] Hint Resolve keeps_defaultZapLogger_sugarLogger : keeps.

Lemma keeps_method_call `{External} f z template args :
  keeps (method_call f z template args).
Proof. rewrite method_call_log. keeps_tac. Qed.

Lemma keeps_global_call `{External} f template args :
  keeps (global_call f template args).
Proof. rewrite global_call_log. keeps_tac. Qed.

Lemma keeps_ZapLogWriter_Write `{External} z b : keeps (ZapLogWriter_Write z b).
Proof.
  unfold ZapLogWriter_Write, SugaredLogger_Debug, SugaredLogger_Info,
    SugaredLogger_Warn, SugaredLogger_Error, SugaredLogger_Panic, SugaredLogger_Fatal.
  keeps_tac.
Qed.

Lemma keeps_accessors z :
  keeps GetDefaultZapLogger /\ keeps GetDefaultSugarLogger /\
  keeps (ZapLogger_GetZapLogger z) /\ keeps (ZapLogger_GetSugarLogger z).
Proof.
  unfold GetDefaultZapLogger, GetDefaultSugarLogger, ZapLogger_GetZapLogger,
    ZapLogger_GetSugarLogger.
  split; [|split; [|split]]; keeps_tac.
Qed.

(** ** The constructor and the global slot *)

Lemma NewZapLogger_invalid w p logLevel :
  p ≫= (fun l => configs w !! l) = None ->
  NewZapLogger p logLevel w = Panics nil_dereference w.
Proof.
  intros Hp. unfold NewZapLogger, NewZapLogger_prepare.
  do 2 apply bind_Panics. unfold get_config. now rewrite Hp.
Qed.

Lemma boot_world :
  init World_zero = Returns tt boot /\
  boot = mkWorld {[1%positive := mkLogConfig (AnyWriter os_Stdout) 100 3 30 false]}
           {[1%positive := built_handle os_Stdout zap_DebugLevel (Some 1%positive)]}
           (Some 1%positive) (mkRWMutex false 0) [].
Proof. split; vm_compute; reflexivity. Qed.

Lemma InitDefaultLogger_run w p c logLevel :
  resetLock w = mkRWMutex false 0 ->
  configs w !! p = Some c ->
  InitDefaultLogger (Some p) logLevel w =
  Returns tt
    (mkWorld (<[p := constructed_config c]> (configs w))
       (<[fresh (dom (handles w)) :=
            built_handle (constructed_writer c) logLevel (Some p)]> (handles w))
       (Some (fresh (dom (handles w)))) (mkRWMutex false 0) (output w)).
Proof.
  intros Hl Hp. unfold InitDefaultLogger, mbind at 1, Go_bind at 1, Lock.
  rewrite Hl.
  erewrite bind_Returns; [|apply NewZapLogger_Some; exact Hp].
  reflexivity.
Qed.

Lemma handle_ready_frame w w' :
  handles w' = handles w -> defaultZapLogger w' = defaultZapLogger w ->
  handle_ready w -> handle_ready w'.
Proof.
  intros Hh Hd (l & wr & enab & cfg & Hs & Hl).
  exists l, wr, enab, cfg. now rewrite Hh, Hd.
Qed.

Lemma handle_ready_keeps {A} (m : Go A) w :
  keeps m -> handle_ready w -> handle_ready (world_of (m w)).
Proof.
  intros Hk. destruct (Hk w) as (_ & Hh & Hd). now apply handle_ready_frame.
Qed.

Lemma handle_ready_NewZapLogger w p logLevel :
  handle_ready w -> handle_ready (world_of (NewZapLogger p logLevel w)).
Proof.
  intros Hr. destruct (p ≫= (fun l => configs w !! l)) as [c|] eqn:Hp.
  - destruct p as [p|]; [|discriminate]. simpl in Hp.
    rewrite (NewZapLogger_Some _ _ _ _ Hp). simpl.
    destruct Hr as (l0 & wr & enab & cfg & Hs & Hz).
    exists l0, wr, enab, cfg. split; [exact Hs|]. simpl.
    rewrite lookup_insert_ne; [exact Hz|].
    intros Heq. rewrite <- Heq, fresh_handle_None in Hz. discriminate.
  - now rewrite (NewZapLogger_invalid _ _ _ Hp).
Qed.

Lemma handle_ready_InitDefaultLogger w p logLevel :
  handle_ready w -> handle_ready (world_of (InitDefaultLogger p logLevel w)).
Proof.
  intros Hr. unfold InitDefaultLogger, mbind at 1, Go_bind at 1, Lock.
  destruct (resetLock w) as [[] [|n]] eqn:Hl; try exact Hr.
  set (wl := with_resetLock _ w).
  assert (Hrl : handle_ready wl) by (revert Hr; now apply handle_ready_frame).
  destruct (p ≫= (fun l => configs wl !! l)) as [c|] eqn:Hp.
  - destruct p as [p|]; [|discriminate]. simpl in Hp.
    erewrite bind_Returns; [|apply NewZapLogger_Some; exact Hp]. simpl.
    eexists _, _, _, _. split; [reflexivity|]. simpl. apply lookup_insert_eq.
  - unfold mbind, Go_bind. now rewrite (NewZapLogger_invalid _ _ _ Hp).
Qed.

Lemma handle_ready_boot : handle_ready boot.
Proof.
  destruct boot_world as [_ ->].
  exists 1%positive, os_Stdout, zap_DebugLevel, (Some 1%positive).
  split; reflexivity.
Qed.

Lemma handle_ready_run_call `{External} c w :
  handle_ready w -> handle_ready (world_of (run_call c w)).
Proof.
  intros Hr. destruct c; simpl.
  - pose proof (handle_ready_NewZapLogger w config0 logLevel Hr) as Hn.
    unfold mbind, Go_bind. destruct (NewZapLogger config0 logLevel w); exact Hn.
  - now apply handle_ready_InitDefaultLogger.
  - apply handle_ready_keeps; [apply keeps_global_call | exact Hr].
  - apply handle_ready_keeps; [apply keeps_method_call | exact Hr].
  - apply handle_ready_keeps; [|exact Hr].
    apply keeps_bind; [apply (keeps_accessors None) | intro; apply keeps_ret].
  - apply handle_ready_keeps; [|exact Hr].
    apply keeps_bind; [apply (keeps_accessors None) | intro; apply keeps_ret].
  - apply handle_ready_keeps; [|exact Hr].
    apply keeps_bind; [apply (keeps_accessors z) | intro; apply keeps_ret].
  - apply handle_ready_keeps; [|exact Hr].
    apply keeps_bind; [apply (keeps_accessors z) | intro; apply keeps_ret].
  - apply handle_ready_keeps; [|exact Hr].
    apply keeps_bind; [apply keeps_ZapLogWriter_Write | intro; apply keeps_ret].
  - exact Hr.
  - revert Hr. now apply handle_ready_frame.
  - unfold put_config. destruct p as [p|]; [|exact Hr].
    destruct (configs w !! p); [|exact Hr]. revert Hr. now apply handle_ready_frame.
Qed.

Lemma reachable_ready `{External} w : reachable w -> handle_ready w.
Proof.
  induction 1 as [|c w _ IH]; [apply handle_ready_boot|].
  now apply handle_ready_run_call.
Qed.

Lemma default_thresholds_fields c :
  FileMaxSize (default_thresholds c)
    = (if FileMaxSize c <=? 0 then 100 else FileMaxSize c) /\
  FileMaxBackup (default_thresholds c)
    = (if FileMaxBackup c <=? 0 then 3 else FileMaxBackup c) /\
  FileMaxAge (default_thresholds c)
    = (if FileMaxAge c <=? 0 then 30 else FileMaxAge c) /\
  FileCompress (default_thresholds c) = FileCompress c.
Proof.
  unfold default_thresholds.
  destruct (FileMaxAge c <=? 0) eqn:Ea, (FileMaxBackup c <=? 0) eqn:Eb,
    (FileMaxSize c <=? 0) eqn:Es; simpl; rewrite ?Ea, ?Eb, ?Es; simpl;
    rewrite ?Ea, ?Eb, ?Es; auto.
Qed.

Lemma constructed_config_fields c :
  FileMaxSize (constructed_config c) = FileMaxSize (default_thresholds c) /\
  FileMaxBackup (constructed_config c) = FileMaxBackup (default_thresholds c) /\
  FileMaxAge (constructed_config c) = FileMaxAge (default_thresholds c) /\
  FileCompress (constructed_config c) = FileCompress c /\
  FilenameOrIoWriter (constructed_config c)
    = (if dest_resolves c then FilenameOrIoWriter c else AnyWriter os_Stdout).
Proof.
  destruct (default_thresholds_fields c) as (_ & _ & _ & Hc).
  assert (Hr : dest_resolves (default_thresholds c) = dest_resolves c)
    by (unfold dest_resolves; now rewrite default_thresholds_dest).
  unfold constructed_config. cbv zeta. rewrite Hr.
  destruct (dest_resolves c); simpl; auto using default_thresholds_dest.
Qed.

Lemma example_world_config :
  configs example_world !! 2%positive = Some example_config.
Proof. vm_compute. reflexivity. Qed.

(** ** Destination resolution *)

(** C1: [getWriter] is a three-way case split on the destination field of
    the struct it is given.  A path string yields a rotating file sink that
    carries the struct's max-size, max-backups, max-age and compression
    settings; a value that already is an [io.Writer] is returned as it is;
    any other value, the nil interface included, yields an error and no
    sink.  The world is not changed in any case. *)
Theorem getWriter_three_way w p c :
  configs w !! p = Some c ->
  (forall filename, FilenameOrIoWriter c = AnyString filename ->
     getWriter (Some p) w =
     Returns (Some (LumberjackLogger filename (FileMaxSize c) (FileMaxBackup c)
                      (FileMaxAge c) (FileCompress c)), None) w) /\
  (forall wr, FilenameOrIoWriter c = AnyWriter wr ->
     getWriter (Some p) w = Returns (Some wr, None) w) /\
  ((forall filename, FilenameOrIoWriter c <> AnyString filename) ->
   (forall wr, FilenameOrIoWriter c <> AnyWriter wr) ->
     exists e, getWriter (Some p) w = Returns (None, Some e) w) /\
  (FilenameOrIoWriter c = AnyNil ->
     exists e, getWriter (Some p) w = Returns (None, Some e) w).
Proof.
  intros Hp. rewrite (getWriter_Some _ _ _ Hp).
  repeat split.
  - now intros filename ->.
  - now intros wr ->.
  - intros Hs Hw. destruct (FilenameOrIoWriter c) eqn:Hd; eauto.
    + now destruct (Hs s).
    + now destruct (Hw w0).
  - intros ->. eauto.
Qed.

Lemma getWriter_three_way_witness :
  configs example_world !! 2%positive = Some example_config /\
  exists e, getWriter (Some 2%positive) example_world
            = Returns (None, Some e) example_world.
Proof.
  assert (Hp : configs example_world !! 2%positive = Some example_config)
    by (vm_compute; reflexivity).
  split; [exact Hp|].
  destruct (getWriter_three_way example_world 2%positive example_config Hp)
    as (_ & _ & Hother & _).
  apply Hother.
  - intros filename. discriminate.
  - intros wr. discriminate.
Defined.

Lemma NewZapLogger_prepare_inv w p zl w1 :
  NewZapLogger_prepare (Some p) w = Returns zl w1 ->
  exists c, configs w !! p = Some c /\
    zl = Some (fresh (dom (handles w))) /\
    w1 = mkWorld (<[p := default_thresholds c]> (configs w))
           (<[fresh (dom (handles w)) := set_config (Some p) ZapLogger_zero]>
              (handles w))
           (defaultZapLogger w) (resetLock w) (output w).
Proof.
  intros Hprep. destruct (configs w !! p) as [c|] eqn:Hp.
  - rewrite (NewZapLogger_prepare_Some _ _ _ Hp) in Hprep.
    injection Hprep as <- <-. eauto.
  - unfold NewZapLogger_prepare in Hprep.
    erewrite bind_Panics in Hprep; [discriminate|].
    unfold get_config. simpl. now rewrite Hp.
Qed.



(** ** Thresholds and the caller's struct *)

Lemma leb_nonpos x d : (x <= 0 -> (if x <=? 0 then d else x) = d)
                       /\ (0 < x -> (if x <=? 0 then d else x) = x).
Proof. destruct (Z.leb_spec x 0); split; intros; lia || reflexivity. Qed.

(** C3: construction on a struct returns, and afterwards each of the three
    thresholds of the struct holds its default (size 100, backups 3, age
    30) if it was not positive and its former value if it was positive; no
    threshold changes in any other way.  A rotating file sink built for a
    path destination carries these values. *)
Theorem NewZapLogger_substitutes_defaults w p c logLevel :
  configs w !! p = Some c ->
  exists zl w' c',
    NewZapLogger (Some p) logLevel w = Returns zl w' /\
    configs w' !! p = Some c' /\
    (FileMaxSize c <= 0 -> FileMaxSize c' = 100) /\
    (0 < FileMaxSize c -> FileMaxSize c' = FileMaxSize c) /\
    (FileMaxBackup c <= 0 -> FileMaxBackup c' = 3) /\
    (0 < FileMaxBackup c -> FileMaxBackup c' = FileMaxBackup c) /\
    (FileMaxAge c <= 0 -> FileMaxAge c' = 30) /\
    (0 < FileMaxAge c -> FileMaxAge c' = FileMaxAge c) /\
    (forall filename, FilenameOrIoWriter c = AnyString filename ->
       get_handle zl logWriter w' =
       Returns (Some (LumberjackLogger filename (FileMaxSize c') (FileMaxBackup c')
                        (FileMaxAge c') (FileCompress c))) w').
Proof.
  intros Hp. eexists _, _, (constructed_config c).
  split; [apply NewZapLogger_Some; exact Hp|].
  destruct (constructed_config_fields c) as (Hs & Hb & Ha & Hc & Hd).
  destruct (default_thresholds_fields c) as (Hs' & Hb' & Ha' & Hc').
  rewrite Hs, Hb, Ha, Hs', Hb', Ha'.
  split; [apply lookup_insert_eq|].
  repeat (split; [apply leb_nonpos|]).
  intros filename Hf. unfold get_handle. simpl. rewrite lookup_insert_eq. simpl.
  unfold constructed_writer. cbv zeta.
  rewrite default_thresholds_dest, Hf, Hs', Hb', Ha', Hc'. reflexivity.
Qed.

Lemma NewZapLogger_substitutes_defaults_witness :
  exists zl w' c',
    NewZapLogger (Some 2%positive) zap_DebugLevel example_world = Returns zl w' /\
    configs w' !! 2%positive = Some c' /\
    FileMaxSize c' = 100 /\ FileMaxBackup c' = 3 /\ FileMaxAge c' = 14.
Proof.
  assert (Hp : configs example_world !! 2%positive = Some example_config)
    by (vm_compute; reflexivity).
  destruct (NewZapLogger_substitutes_defaults example_world 2%positive
              example_config zap_DebugLevel Hp)
    as (zl & w' & c' & Hrun & Hc' & Hs & _ & Hb & _ & _ & Ha & _).
  exists zl, w', c'. repeat split; try assumption.
  - apply Hs. vm_compute. discriminate.
  - apply Hb. vm_compute. discriminate.
  - apply Ha. reflexivity.
Defined.

(** C10: the constructor works on the caller's own struct.  After it
    returned, the struct behind the caller's pointer holds the defaults in
    place of the thresholds that were not positive, and holds the standard
    output as destination if the first resolution failed (and the former
    destination if it succeeded); structs behind other pointers are as
    before.  The handle keeps the caller's pointer, not a copy: what the
    caller stores in the struct later is what the handle's configuration
    reads. *)
Theorem NewZapLogger_mutates_caller_struct w p c logLevel :
  configs w !! p = Some c ->
  exists zl w' c',
    NewZapLogger (Some p) logLevel w = Returns zl w' /\
    configs w' !! p = Some c' /\
    FileMaxSize c' = (if FileMaxSize c <=? 0 then 100 else FileMaxSize c) /\
    FileMaxBackup c' = (if FileMaxBackup c <=? 0 then 3 else FileMaxBackup c) /\
    FileMaxAge c' = (if FileMaxAge c <=? 0 then 30 else FileMaxAge c) /\
    FileCompress c' = FileCompress c /\
    (forall zl1 w1, NewZapLogger_prepare (Some p) w = Returns zl1 w1 ->
       ((exists e, getWriter (Some p) w1 = Returns (None, Some e) w1) ->
          FilenameOrIoWriter c' = AnyWriter os_Stdout) /\
       ((exists wr, getWriter (Some p) w1 = Returns (Some wr, None) w1) ->
          FilenameOrIoWriter c' = FilenameOrIoWriter c)) /\
    (forall q, q <> p -> configs w' !! q = configs w !! q) /\
    get_handle zl config w' = Returns (Some p) w' /\
    (forall c2 w2,
       put_config (Some p) (fun _ => c2) w' = Returns tt w2 ->
       exists hc, get_handle zl config w2 = Returns hc w2 /\
                  get_config hc (fun x => x) w2 = Returns c2 w2).
Proof.
  intros Hp. eexists _, _, (constructed_config c).
  split; [apply NewZapLogger_Some; exact Hp|].
  destruct (constructed_config_fields c) as (Hs & Hb & Ha & Hc & Hd).
  destruct (default_thresholds_fields c) as (Hs' & Hb' & Ha' & Hc').
  rewrite Hs, Hb, Ha, Hs', Hb', Ha'.
  split; [apply lookup_insert_eq|].
  repeat (split; [reflexivity || assumption|]).
  split; [|split; [|split]].
  - intros zl1 w1 Hprep.
    destruct (NewZapLogger_prepare_inv _ _ _ _ Hprep) as (c0 & Hp0 & -> & ->).
    assert (c0 = c) as -> by congruence.
    erewrite getWriter_Some by apply lookup_insert_eq.
    rewrite default_thresholds_dest, Hd. unfold dest_resolves.
    split; intros (x & Hx); destruct (FilenameOrIoWriter c);
      try reflexivity; discriminate.
  - intros q Hq. simpl. now apply lookup_insert_ne.
  - unfold get_handle. simpl. now rewrite lookup_insert_eq.
  - intros c2 w2 Hput.
    erewrite put_config_Some in Hput by apply lookup_insert_eq.
    injection Hput as <-. exists (Some p).
    unfold get_handle, get_config. simpl.
    now rewrite !lookup_insert_eq.
Qed.

Lemma NewZapLogger_mutates_caller_struct_witness :
  exists zl w',
    NewZapLogger (Some 2%positive) zap_DebugLevel example_world = Returns zl w' /\
    configs w' !! 2%positive
      = Some (mkLogConfig (AnyWriter os_Stdout) 100 3 14 true) /\
    get_handle zl config w' = Returns (Some 2%positive) w'.
Proof.
  assert (Hp : configs example_world !! 2%positive = Some example_config)
    by (vm_compute; reflexivity).
  destruct (NewZapLogger_mutates_caller_struct example_world 2%positive
              example_config zap_DebugLevel Hp)
    as (zl & w' & c' & Hrun & Hc' & Hs & Hb & Ha & Hc & Hd & _ & Hz & _).
  exists zl, w'. split; [exact Hrun|]. split; [|exact Hz].
  transitivity (Some c'); [exact Hc'|]. f_equal.
  assert (Hprep : NewZapLogger_prepare (Some 2%positive) example_world
                  = Returns (Some 2%positive)
                      (world_of (NewZapLogger_prepare (Some 2%positive) example_world)))
    by (vm_compute; reflexivity).
  destruct (Hd _ _ Hprep) as [Hfail _].
  assert (Hdest : FilenameOrIoWriter c' = AnyWriter os_Stdout)
    by (apply Hfail; eexists; vm_compute; reflexivity).
  destruct c'. simpl in *. subst. reflexivity.
Defined.

(** ** The adapter *)

Lemma ZapLogWriter_Write_arm `{External} z b :
  ZapLogWriter_Write z b =
  (RLock ;;
   (s ← defaultZapLogger_sugarLogger;
    SugaredLogger_log s (write_arm (level z)) "" [AnyString (string_of_list_byte b)]) ;;
   RUnlock ;;
   mret (len b, None)).
Proof.
  unfold ZapLogWriter_Write, write_arm.
  repeat match goal with
         | |- context [if case_of ?l ?ls then _ else _] => destruct (case_of l ls)
         end; reflexivity.
Qed.

Lemma ready_sugarLogger w l wr enab cfg :
  defaultZapLogger w = Some l ->
  handles w !! l = Some (built_handle wr enab cfg) ->
  defaultZapLogger_sugarLogger w
  = Returns (Some (Logger_Sugar (built_logger wr enab))) w.
Proof.
  intros Hs Hl. unfold defaultZapLogger_sugarLogger, read_defaultZapLogger.
  unfold mbind at 1, Go_bind at 1. rewrite Hs.
  now rewrite (get_handle_Some _ _ _ _ Hl).
Qed.















(** ** Global functions and methods *)

(** C8: each of the six levels debug, info, warn, error, fatal and dpanic
    has exactly one plain and one formatted emission function, and no other
    level has any.  A package-level function is the method of the same name
    run on the current global handle between taking and releasing the read
    lock; both log at the level of their name, the plain ones without a
    template.  With no writer holding the lock, the global call and the
    method call on the current handle end the same way, hand the same
    entries to the sink, leave heaps and slot alike, and are the same
    outcome when the method returns. *)
Theorem global_call_delegates `{External} :
  (forall lvl (formatted : bool), In lvl emission_levels ->
     exists! f, fn_level f = lvl /\ fn_formatted f = formatted) /\
  (forall f, In (fn_level f) emission_levels) /\
  (forall f z template args,
     method_call f z template args =
     (s ← get_handle z sugarLogger;
      SugaredLogger_log s (fn_level f)
        (if fn_formatted f then template else "") args)) /\
  (forall f template args w,
     global_call f template args w =
     (RLock ;;
      (d ← read_defaultZapLogger; method_call f d template args) ;;
      RUnlock) w) /\
  (forall f template args w,
     writer (resetLock w) = false ->
     let g := global_call f template args w in
     let m := method_call f (defaultZapLogger w) template args w in
     ending g = ending m /\
     output (world_of g) = output (world_of m) /\
     frame (world_of m) (world_of g) /\
     (ending m = Returned -> g = m)).
Proof.
  split; [|split; [|split; [|split]]].
  - intros lvl formatted Hin.
    destruct lvl, formatted; simpl in Hin;
      try (exfalso; intuition discriminate);
      match goal with
      | |- exists! f, fn_level f = ?l /\ fn_formatted f = ?b =>
          first [ exists FnDebug; split; [split; reflexivity|]
                | exists FnDebugf; split; [split; reflexivity|]
                | exists FnInfo; split; [split; reflexivity|]
                | exists FnInfof; split; [split; reflexivity|]
                | exists FnWarn; split; [split; reflexivity|]
                | exists FnWarnf; split; [split; reflexivity|]
                | exists FnError; split; [split; reflexivity|]
                | exists FnErrorf; split; [split; reflexivity|]
                | exists FnFatal; split; [split; reflexivity|]
                | exists FnFatalf; split; [split; reflexivity|]
                | exists FnDPanic; split; [split; reflexivity|]
                | exists FnDPanicf; split; [split; reflexivity|] ]
      end;
      intros f' [Hl Hf]; destruct f'; try discriminate; reflexivity.
  - intros f. destruct f; simpl; auto 10.
  - intros. apply method_call_log.
  - intros. apply global_call_bracket.
  - intros f template args w Hw g m. subst g m.
    rewrite (global_call_run _ _ _ _ Hw).
    destruct (method_call f (defaultZapLogger w) template args w) as [[] w'| | |];
      simpl; repeat split; try reflexivity; discriminate.
Qed.

Lemma global_call_delegates_witness :
  global_call (H := plain_External) FnWarnf "disk %d%% full" [AnyInt 93] boot
  = method_call (H := plain_External) FnWarnf (defaultZapLogger boot)
      "disk %d%% full" [AnyInt 93] boot.
Proof.
  destruct (global_call_delegates (H := plain_External))
    as (_ & _ & _ & _ & Hsame).
  apply (Hsame FnWarnf "disk %d%% full" [AnyInt 93] boot).
  - vm_compute. reflexivity.
  - vm_compute. reflexivity.
Defined.

(** ** The null sink *)

(** C9: for every buffer of length N, [Write] of the null sink returns N
    and no error and leaves the world exactly as it found it; the result
    depends on the buffer through its length only. *)
Theorem NullWriter_Write_discards :
  (forall (b : list byte) w,
     NullWriter_Write b w = Returns (Z.of_nat (length b), None) w) /\
  (forall (b b' : list byte) w, length b = length b' ->
     NullWriter_Write b w = NullWriter_Write b' w) /\
  (forall (b : list byte) w, world_of (NullWriter_Write b w) = w).
Proof.
  split; [|split].
  - reflexivity.
  - intros b b' w Hlen. unfold NullWriter_Write, len. now rewrite Hlen.
  - reflexivity.
Qed.

(** ** The global slot *)

Lemma InitDefaultLogger_cases w p logLevel :
  (resetLock w <> mkRWMutex false 0 /\
   InitDefaultLogger p logLevel w = Blocks w) \/
  (resetLock w = mkRWMutex false 0 /\
   InitDefaultLogger p logLevel w
   = Panics nil_dereference (with_resetLock (mkRWMutex true 0) w)) \/
  (resetLock w = mkRWMutex false 0 /\
   exists l c, p = Some l /\ configs w !! l = Some c /\
     InitDefaultLogger p logLevel w =
     Returns tt
       (mkWorld (<[l := constructed_config c]> (configs w))
          (<[fresh (dom (handles w)) :=
               built_handle (constructed_writer c) logLevel (Some l)]> (handles w))
          (Some (fresh (dom (handles w)))) (mkRWMutex false 0) (output w))).
Proof.
  destruct (resetLock w) as [[] [|n]] eqn:Hl.
  1, 2, 4: left; split; [discriminate|];
    unfold InitDefaultLogger, mbind at 1, Go_bind at 1, Lock; now rewrite Hl.
  right. destruct (p ≫= (fun l => configs w !! l)) as [c|] eqn:Hp.
  - right. split; [reflexivity|]. destruct p as [l|]; [|discriminate].
    exists l, c. repeat split; [exact Hp|].
    now apply InitDefaultLogger_run.
  - left. split; [reflexivity|].
    unfold InitDefaultLogger, mbind at 1, Go_bind at 1, Lock. rewrite Hl.
    apply bind_Panics. now apply NewZapLogger_invalid.
Qed.

(** C4: the Go runtime runs [init] on the zero world, where the slot is
    nil; [init] returns and leaves the slot pointing to a handle built from
    an empty configuration with the debug threshold.  In every world the
    process can be in afterwards, whatever calls were made and however they
    ended, a read of the slot yields a non-nil pointer to a completed
    handle: the expression [defaultZapLogger.sugarLogger] of the emission
    functions and of the adapter and both accessors return non-nil engines.
    A call of [InitDefaultLogger] that returns has put into the slot a
    handle allocated by that call and built with the given threshold and
    configuration; the call returns whenever the lock is free and the
    configuration pointer is valid; a call that does not return leaves the
    slot as it was. *)
Theorem global_slot_never_nil `{External} :
  (defaultZapLogger World_zero = None /\
   init World_zero = Returns tt boot /\
   exists l cfg,
     defaultZapLogger boot = Some l /\
     handles boot !! l = Some (built_handle os_Stdout zap_DebugLevel (Some cfg)) /\
     configs boot !! cfg = Some (constructed_config LogConfig_zero)) /\
  (forall w, reachable w ->
     exists l z s g,
       read_defaultZapLogger w = Returns (Some l) w /\
       handles w !! l = Some z /\
       sugarLogger z = Some s /\ zapLogger z = Some g /\
       defaultZapLogger_sugarLogger w = Returns (Some s) w /\
       GetDefaultSugarLogger w = Returns (Some s) w /\
       GetDefaultZapLogger w = Returns (Some g) w) /\
  (forall w config logLevel w',
     InitDefaultLogger config logLevel w = Returns tt w' ->
     exists l wr,
       defaultZapLogger w' = Some l /\
       handles w !! l = None /\
       handles w' !! l = Some (built_handle wr logLevel config)) /\
  (forall w p c logLevel,
     resetLock w = mkRWMutex false 0 -> configs w !! p = Some c ->
     exists w', InitDefaultLogger (Some p) logLevel w = Returns tt w') /\
  (forall w config logLevel,
     ending (InitDefaultLogger config logLevel w) <> Returned ->
     defaultZapLogger (world_of (InitDefaultLogger config logLevel w))
     = defaultZapLogger w).
Proof.
  split; [|split; [|split; [|split]]].
  - split; [reflexivity|]. split; [apply boot_world|].
    exists 1%positive, 1%positive. destruct boot_world as [_ ->].
    repeat split.
  - intros w Hr.
    destruct (reachable_ready _ Hr) as (l & wr & enab & cfg & Hs & Hz).
    exists l, (built_handle wr enab cfg). eexists _, _.
    split; [unfold read_defaultZapLogger; now rewrite Hs|].
    split; [exact Hz|]. split; [reflexivity|]. split; [reflexivity|].
    split; [exact (ready_sugarLogger w l wr enab cfg Hs Hz)|].
    split; [exact (ready_sugarLogger w l wr enab cfg Hs Hz)|].
    unfold GetDefaultZapLogger, read_defaultZapLogger, mbind, Go_bind.
    rewrite Hs. now rewrite (get_handle_Some _ _ _ _ Hz).
  - intros w config0 logLevel w' Hrun.
    destruct (InitDefaultLogger_cases w config0 logLevel)
      as [[_ Hb] | [[_ Hp] | (_ & l & c & -> & Hc & Hok)]];
      rewrite Hrun in *; try discriminate.
    injection Hok as ->. eexists _, _. simpl.
    split; [reflexivity|]. split; [apply fresh_handle_None|].
    apply lookup_insert_eq.
  - intros w p c logLevel Hl Hp. eexists.
    exact (InitDefaultLogger_run w p c logLevel Hl Hp).
  - intros w config0 logLevel Hend.
    destruct (InitDefaultLogger_cases w config0 logLevel)
      as [[_ Hb] | [[_ Hp] | (_ & l & c & -> & Hc & Hok)]].
    + now rewrite Hb.
    + now rewrite Hp.
    + rewrite Hok in Hend. now destruct Hend.
Qed.

(** * Further properties of logger.go *)

(** ** Helper facts *)

Lemma defaultZapLogger_sugarLogger_world w :
  world_of (defaultZapLogger_sugarLogger w) = w /\
  ending (defaultZapLogger_sugarLogger w) <> Blocked /\
  (forall e, ending (defaultZapLogger_sugarLogger w) <> Exited e).
Proof.
  unfold defaultZapLogger_sugarLogger, read_defaultZapLogger, mbind, Go_bind,
    get_handle.
  destruct (defaultZapLogger w ≫= _); simpl; repeat split; discriminate.
Qed.

Lemma SugaredLogger_log_not_blocked `{External} s lvl template args w :
  ending (SugaredLogger_log s lvl template args w) <> Blocked.
Proof.
  unfold SugaredLogger_log, Logger_log, Writer_Write, NullWriter_Write.
  go_unfold. destruct s as [s|]; [|discriminate].
  destruct (core_enab (core (base s)) lvl), lvl, (core_out (core (base s))) as [[]|],
    (development (base s)); discriminate.
Qed.

Lemma sugar_call_lock `{External} lvl template args w :
  resetLock (world_of ((s ← defaultZapLogger_sugarLogger;
                        SugaredLogger_log s lvl template args) w))
  = resetLock w /\
  ending ((s ← defaultZapLogger_sugarLogger;
           SugaredLogger_log s lvl template args) w) <> Blocked.
Proof.
  destruct (defaultZapLogger_sugarLogger_world w) as (Hw & Hb & _).
  unfold mbind, Go_bind.
  destruct (defaultZapLogger_sugarLogger w) as [s w'| | |]; simpl in *; subst;
    try (split; [reflexivity | congruence]).
  split; [apply SugaredLogger_log_keeps_lock | apply SugaredLogger_log_not_blocked].
Qed.

Lemma RWMutex_unlock_read w w' :
  writer (resetLock w) = false ->
  resetLock w' = mkRWMutex false (S (readers (resetLock w))) ->
  resetLock (world_of (RUnlock w')) = resetLock w.
Proof.
  intros Hw Hl. unfold RUnlock. simpl. rewrite Hl. simpl.
  destruct (resetLock w); simpl in *. now subst.
Qed.

Lemma read_bracket {A} (m : Go unit) (k : Go A) w :
  (RLock ;; m ;; k) w =
  if writer (resetLock w) then Blocks w
  else match m (read_locked w) with
       | Returns _ w1 => k w1
       | Panics msg w1 => Panics msg w1
       | Exits code w1 => Exits code w1
       | Blocks w1 => Blocks w1
       end.
Proof.
  unfold mbind, Go_bind, RLock, read_locked.
  destruct (writer (resetLock w)); reflexivity.
Qed.

Lemma NewZapLogger_lock w p logLevel :
  resetLock (world_of (NewZapLogger p logLevel w)) = resetLock w /\
  defaultZapLogger (world_of (NewZapLogger p logLevel w)) = defaultZapLogger w /\
  output (world_of (NewZapLogger p logLevel w)) = output w /\
  ending (NewZapLogger p logLevel w) <> Blocked.
Proof.
  destruct (p ≫= (fun l => configs w !! l)) as [c|] eqn:Hp.
  - destruct p as [p|]; [|discriminate]. simpl in Hp.
    rewrite (NewZapLogger_Some _ _ _ _ Hp). repeat split. discriminate.
  - rewrite (NewZapLogger_invalid _ _ _ Hp). repeat split. discriminate.
Qed.

Lemma accessor_world {A} (p : ptr) (f : ZapLogger -> A) w :
  world_of (get_handle p f w) = w /\ ending (get_handle p f w) <> Blocked.
Proof.
  unfold get_handle. destruct (p ≫= _); simpl; split; (reflexivity || discriminate).
Qed.

Lemma bind_ret_world {A} (m : Go A) w :
  world_of ((m ;; mret tt) w) = world_of (m w) /\
  ending ((m ;; mret tt) w) = ending (m w).
Proof. unfold mbind, Go_bind. destruct (m w); split; reflexivity. Qed.

Lemma global_accessor_world {A} (f : ZapLogger -> A) w :
  world_of ((d ← read_defaultZapLogger; get_handle d f) w) = w /\
  ending ((d ← read_defaultZapLogger; get_handle d f) w) <> Blocked.
Proof.
  unfold mbind, Go_bind, read_defaultZapLogger. apply accessor_world.
Qed.

(** ** The lock *)

Lemma run_call_lock_balance `{External} c w :
  ending (run_call c w) = Returned ->
  resetLock (world_of (run_call c w)) = resetLock w.
Proof.
  destruct c; simpl; intros Hret.
  - destruct (bind_ret_world (NewZapLogger config0 logLevel) w) as [-> _].
    apply NewZapLogger_lock.
  - destruct (InitDefaultLogger_cases w config0 logLevel)
      as [[_ Hb] | [[_ Hp] | (Hl & l & c & -> & Hc & Hok)]];
      rewrite ?Hb, ?Hp, ?Hok in *; try discriminate.
    simpl. now rewrite Hl.
  - rewrite global_call_log, read_bracket in *.
    destruct (writer (resetLock w)) eqn:Hw; [discriminate|].
    destruct (sugar_call_lock (fn_level f) (if fn_formatted f then template else "")
                args (read_locked w)) as [Hk _].
    destruct ((_ ← defaultZapLogger_sugarLogger; _) (read_locked w)) as [[] w1| | |];
      try discriminate.
    now apply RWMutex_unlock_read.
  - apply method_call_keeps_lock.
  - destruct (bind_ret_world GetDefaultZapLogger w) as [-> _].
    exact (f_equal resetLock (proj1 (global_accessor_world zapLogger w))).
  - destruct (bind_ret_world GetDefaultSugarLogger w) as [-> _].
    exact (f_equal resetLock (proj1 (global_accessor_world sugarLogger w))).
  - destruct (bind_ret_world (ZapLogger_GetZapLogger z) w) as [-> _].
    exact (f_equal resetLock (proj1 (accessor_world z zapLogger w))).
  - destruct (bind_ret_world (ZapLogger_GetSugarLogger z) w) as [-> _].
    exact (f_equal resetLock (proj1 (accessor_world z sugarLogger w))).
  - destruct (bind_ret_world (ZapLogWriter_Write z b) w) as [Hw' He].
    rewrite Hw'. rewrite He in Hret. clear Hw' He.
    rewrite ZapLogWriter_Write_arm, read_bracket in *.
    destruct (writer (resetLock w)) eqn:Hw; [discriminate|].
    destruct (sugar_call_lock (write_arm (level z)) ""
                [AnyString (string_of_list_byte b)] (read_locked w)) as [Hk _].
    destruct ((_ ← defaultZapLogger_sugarLogger; _) (read_locked w)) as [[] w1| | |];
      try discriminate.
    unfold mbind, Go_bind. simpl in Hk.
    pose proof (RWMutex_unlock_read w w1 Hw Hk) as Hu.
    destruct (RUnlock w1) eqn:Hr; simpl in *; try discriminate; exact Hu.
  - reflexivity.
  - reflexivity.
  - unfold put_config in *. destruct p as [p|]; [|discriminate].
    destruct (configs w !! p); [reflexivity | discriminate].
Qed.

(** X4: whatever exported function or method a caller runs, if the call
    returns then [resetLock] is in the state in which the call found it. *)
Theorem returning_call_restores_lock `{External} c w :
  ending (run_call c w) = Returned ->
  resetLock (world_of (run_call c w)) = resetLock w.
Proof. apply run_call_lock_balance. Qed.

Lemma returning_call_restores_lock_witness :
  resetLock (world_of (run_call (H := plain_External)
                         (CallWrite (NewZapLogWriter "warn")
                            (list_byte_of_string "hello")) boot))
  = resetLock boot.
Proof.
  apply (returning_call_restores_lock (H := plain_External)).
  vm_compute. reflexivity.
Defined.

Lemma free_lock_never_blocks `{External} c w :
  resetLock w = mkRWMutex false 0 -> ending (run_call c w) <> Blocked.
Proof.
  intros Hl. assert (Hw : writer (resetLock w) = false) by now rewrite Hl.
  destruct c; simpl.
  - destruct (bind_ret_world (NewZapLogger config0 logLevel) w) as [_ ->].
    apply NewZapLogger_lock.
  - destruct (InitDefaultLogger_cases w config0 logLevel)
      as [[Hn _] | [[_ Hp] | (_ & l & c & -> & Hc & Hok)]];
      [now destruct Hn | now rewrite Hp | now rewrite Hok].
  - rewrite global_call_log, read_bracket, Hw.
    destruct (sugar_call_lock (fn_level f) (if fn_formatted f then template else "")
                args (read_locked w)) as [_ Hb].
    destruct ((_ ← defaultZapLogger_sugarLogger; _) (read_locked w)) as [[] w1| | |];
      simpl in *; congruence.
  - rewrite method_call_log. unfold mbind, Go_bind, get_handle.
    destruct (z ≫= _); [apply SugaredLogger_log_not_blocked | discriminate].
  - destruct (bind_ret_world GetDefaultZapLogger w) as [_ ->].
    exact (proj2 (global_accessor_world zapLogger w)).
  - destruct (bind_ret_world GetDefaultSugarLogger w) as [_ ->].
    exact (proj2 (global_accessor_world sugarLogger w)).
  - destruct (bind_ret_world (ZapLogger_GetZapLogger z) w) as [_ ->].
    exact (proj2 (accessor_world z zapLogger w)).
  - destruct (bind_ret_world (ZapLogger_GetSugarLogger z) w) as [_ ->].
    exact (proj2 (accessor_world z sugarLogger w)).
  - destruct (bind_ret_world (ZapLogWriter_Write z b) w) as [_ ->].
    rewrite ZapLogWriter_Write_arm, read_bracket, Hw.
    destruct (sugar_call_lock (write_arm (level z)) ""
                [AnyString (string_of_list_byte b)] (read_locked w)) as [_ Hb].
    destruct ((_ ← defaultZapLogger_sugarLogger; _) (read_locked w)) as [[] w1| | |];
      simpl in *; congruence.
  - discriminate.
  - discriminate.
  - unfold put_config. destruct p as [p|]; [|discriminate].
    destruct (configs w !! p); discriminate.
Qed.

(** X5: in a run in which every call so far has returned, [resetLock] is
    free, and so the next call, whichever it is, does not wait on the lock. *)
Theorem quiet_run_never_blocks `{External} w :
  quiet w ->
  resetLock w = mkRWMutex false 0 /\
  forall c, ending (run_call c w) <> Blocked.
Proof.
  intros Hq.
  assert (Hl : resetLock w = mkRWMutex false 0).
  { induction Hq as [|c w _ IH Hret]; [reflexivity|].
    rewrite <- IH. apply run_call_lock_balance; assumption. }
  split; [exact Hl | intros c; now apply free_lock_never_blocks].
Qed.

Lemma quiet_run_never_blocks_witness :
  resetLock (world_of (run_call (H := plain_External)
                         (CallGlobal FnInfo "" [AnyString "up"]) boot))
  = mkRWMutex false 0.
Proof.
  apply (quiet_run_never_blocks (H := plain_External)).
  apply quiet_call; [apply quiet_boot | vm_compute; reflexivity].
Defined.

(** ** The constructor *)

(** X1: [NewZapLogger] ends in one of two ways only.  On a pointer to a
    struct it returns a non-nil handle that was not on the heap before; on a
    nil pointer it panics with a nil dereference and leaves the world as it
    found it.  It never exits, never waits on the lock, and never panics
    with the message of line 62: after the fall-back to the standard output
    the second resolution cannot fail. *)
Theorem NewZapLogger_two_endings w config logLevel :
  (exists l w',
     NewZapLogger config logLevel w = Returns (Some l) w' /\
     handles w !! l = None /\
     exists z, handles w' !! l = Some z /\ logWriter z <> None) \/
  (NewZapLogger config logLevel w = Panics nil_dereference w /\
   config ≫= (fun l => configs w !! l) = None).
Proof.
  destruct (config ≫= (fun l => configs w !! l)) as [c|] eqn:Hp.
  - left. destruct config as [p|]; [|discriminate]. simpl in Hp.
    eexists _, _. split; [apply NewZapLogger_Some; exact Hp|].
    split; [apply fresh_handle_None|].
    eexists. simpl. split; [apply lookup_insert_eq | discriminate].
  - right. split; [now apply NewZapLogger_invalid | reflexivity].
Qed.

Lemma NewZapLogger_keeps_handles w config logLevel l z :
  handles w !! l = Some z ->
  handles (world_of (NewZapLogger config logLevel w)) !! l = Some z.
Proof.
  intros Hz.
  destruct (config ≫= (fun l => configs w !! l)) as [c|] eqn:Hp.
  - destruct config as [p|]; [|discriminate]. simpl in Hp.
    rewrite (NewZapLogger_Some _ _ _ _ Hp). simpl.
    rewrite lookup_insert_ne; [exact Hz|].
    intros Heq. rewrite <- Heq, fresh_handle_None in Hz. discriminate.
  - now rewrite (NewZapLogger_invalid _ _ _ Hp).
Qed.

(** X8: [NewZapLogger] is local to its arguments: whether it returns or
    panics, the global slot, the lock and the entries handed to sinks are
    as before, and every handle that was on the heap is unchanged. *)
Theorem NewZapLogger_leaves_global_state w config logLevel :
  let w' := world_of (NewZapLogger config logLevel w) in
  defaultZapLogger w' = defaultZapLogger w /\
  resetLock w' = resetLock w /\
  output w' = output w /\
  (forall l z, handles w !! l = Some z -> handles w' !! l = Some z).
Proof.
  cbv zeta. destruct (NewZapLogger_lock w config logLevel) as (Hl & Hd & Ho & _).
  repeat split; try assumption.
  intros l z Hz. now apply NewZapLogger_keeps_handles.
Qed.

(** ** Calls that do not return *)

Lemma Blocks_when_writer `{External} w :
  writer (resetLock w) = true ->
  (forall f template args, global_call f template args w = Blocks w) /\
  (forall z b, ZapLogWriter_Write z b w = Blocks w) /\
  (forall config logLevel, InitDefaultLogger config logLevel w = Blocks w).
Proof.
  intros Hw. repeat split; intros.
  - rewrite global_call_log, read_bracket. now rewrite Hw.
  - rewrite ZapLogWriter_Write_arm, read_bracket. now rewrite Hw.
  - unfold InitDefaultLogger, mbind at 1, Go_bind at 1, Lock.
    destruct (resetLock w) as [[] n]; [reflexivity | discriminate].
Qed.

(** X2: [InitDefaultLogger] takes the write lock and releases it only on
    its last line.  Called with a nil configuration on a free lock it panics
    inside the constructor with the lock still held; heaps and slot are
    unchanged.  If the caller recovers from the panic, every later call of a
    package-level emission function, of the adapter's [Write] and of
    [InitDefaultLogger] waits on the lock. *)
Theorem InitDefaultLogger_nil_keeps_lock `{External} w logLevel :
  resetLock w = mkRWMutex false 0 ->
  exists w',
    InitDefaultLogger None logLevel w = Panics nil_dereference w' /\
    resetLock w' = mkRWMutex true 0 /\
    frame w w' /\
    (forall f template args, global_call f template args w' = Blocks w') /\
    (forall z b, ZapLogWriter_Write z b w' = Blocks w') /\
    (forall config logLevel', InitDefaultLogger config logLevel' w' = Blocks w').
Proof.
  intros Hl.
  destruct (InitDefaultLogger_cases w None logLevel)
    as [[Hn _] | [[_ Hp] | (_ & l & c & Hnil & _)]];
    [now destruct Hn | | discriminate].
  eexists. split; [exact Hp|]. split; [reflexivity|].
  split; [frame_tac|]. now apply Blocks_when_writer.
Qed.

Lemma InitDefaultLogger_nil_keeps_lock_witness :
  exists w',
    InitDefaultLogger None zap_DebugLevel boot = Panics nil_dereference w' /\
    global_call (H := plain_External) FnInfo "" [AnyString "x"] w' = Blocks w'.
Proof.
  destruct (InitDefaultLogger_nil_keeps_lock (H := plain_External) boot
              zap_DebugLevel) as (w' & Hp & _ & _ & Hg & _).
  - vm_compute. reflexivity.
  - exists w'. split; [exact Hp | apply Hg].
Defined.




(** ** What calls leave alone *)

(** X6: logging does not write to the heap.  An emission function, a method
    of a handle, an accessor and the adapter's [Write] leave every
    [LogConfig] struct, every handle and the global slot as they were,
    however the call ends. *)
Theorem logging_leaves_heap_and_slot `{External} :
  (forall f template args w, frame w (world_of (global_call f template args w))) /\
  (forall f z template args w,
     frame w (world_of (method_call f z template args w))) /\
  (forall z b w, frame w (world_of (ZapLogWriter_Write z b w))) /\
  (forall w, frame w (world_of (GetDefaultZapLogger w)) /\
             frame w (world_of (GetDefaultSugarLogger w))) /\
  (forall z w, frame w (world_of (ZapLogger_GetZapLogger z w)) /\
               frame w (world_of (ZapLogger_GetSugarLogger z w))).
Proof.
  split; [|split; [|split; [|split]]]; intros.
  - apply keeps_global_call.
  - apply keeps_method_call.
  - apply keeps_ZapLogWriter_Write.
  - split; apply (keeps_accessors None).
  - split; apply (keeps_accessors z).
Qed.

(** X7: a handle is never written to after its construction: whatever call
    is made, and however it ends, every handle on the heap reads as
    before.  A handle obtained before a re-initialisation keeps its sink
    and its threshold. *)
Theorem handles_never_change `{External} c w l z :
  handles w !! l = Some z ->
  handles (world_of (run_call c w)) !! l = Some z.
Proof.
  intros Hz.
  assert (Hk : forall A (m : Go A), keeps m -> handles (world_of (m w)) !! l = Some z).
  { intros A m Hm. destruct (Hm w) as (_ & -> & _). exact Hz. }
  destruct c; simpl.
  - destruct (bind_ret_world (NewZapLogger config0 logLevel) w) as [-> _].
    now apply NewZapLogger_keeps_handles.
  - destruct (InitDefaultLogger_cases w config0 logLevel)
      as [[_ Hb] | [[_ Hp] | (_ & l0 & c & -> & Hc & Hok)]];
      rewrite ?Hb, ?Hp, ?Hok; simpl; try exact Hz.
    rewrite lookup_insert_ne; [exact Hz|].
    intros Heq. rewrite <- Heq, fresh_handle_None in Hz. discriminate.
  - apply Hk, keeps_global_call.
  - apply Hk, keeps_method_call.
  - apply Hk. apply keeps_bind; [apply (keeps_accessors None) | intro; apply keeps_ret].
  - apply Hk. apply keeps_bind; [apply (keeps_accessors None) | intro; apply keeps_ret].
  - apply Hk. apply keeps_bind; [apply (keeps_accessors z0) | intro; apply keeps_ret].
  - apply Hk. apply keeps_bind; [apply (keeps_accessors z0) | intro; apply keeps_ret].
  - apply Hk. apply keeps_bind; [apply keeps_ZapLogWriter_Write | intro; apply keeps_ret].
  - exact Hz.
  - exact Hz.
  - unfold put_config. destruct p as [p|]; [|exact Hz].
    destruct (configs w !! p); exact Hz.
Qed.

Lemma handles_never_change_witness :
  handles (world_of (run_call (H := plain_External)
                       (CallInitDefaultLogger (Some 2%positive)
                          (Level_Enabled ErrorLevel)) example_world))
    !! 1%positive
  = Some (built_handle os_Stdout zap_DebugLevel (Some 1%positive)).
Proof.
  apply (handles_never_change (H := plain_External)).
  vm_compute. reflexivity.
Defined.

(** ** Constructing twice *)

Lemma default_thresholds_fix c :
  0 < FileMaxAge c -> 0 < FileMaxBackup c -> 0 < FileMaxSize c ->
  default_thresholds c = c.
Proof.
  intros Ha Hb Hs. unfold default_thresholds.
  apply Z.leb_gt in Ha, Hb, Hs. now rewrite Ha, Hb, Hs.
Qed.

Lemma default_thresholds_positive c :
  0 < FileMaxAge (default_thresholds c) /\
  0 < FileMaxBackup (default_thresholds c) /\
  0 < FileMaxSize (default_thresholds c).
Proof.
  destruct (default_thresholds_fields c) as (-> & -> & -> & _).
  destruct (Z.leb_spec (FileMaxAge c) 0), (Z.leb_spec (FileMaxBackup c) 0),
    (Z.leb_spec (FileMaxSize c) 0); lia.
Qed.

Lemma constructed_config_idem c :
  constructed_config (constructed_config c) = constructed_config c /\
  constructed_writer (constructed_config c) = constructed_writer c.
Proof.
  destruct (constructed_config_fields c) as (Hs & Hb & Ha & Hc & Hd).
  destruct (default_thresholds_positive c) as (Pa & Pb & Ps).
  assert (Hfix : default_thresholds (constructed_config c) = constructed_config c)
    by (apply default_thresholds_fix; rewrite ?Hs, ?Hb, ?Ha; assumption).
  unfold constructed_config at 1, constructed_writer at 1. cbv zeta.
  rewrite Hfix. unfold dest_resolves at 1. rewrite Hd, Hs, Hb, Ha, Hc.
  unfold constructed_writer. cbv zeta. rewrite default_thresholds_dest.
  destruct (default_thresholds_fields c) as (_ & _ & _ & ->).
  unfold dest_resolves. destruct (FilenameOrIoWriter c); split; reflexivity.
Qed.

(** X9: constructing a second logger from the same struct finds nothing
    left to default or to fall back on: the struct is left exactly as the
    first construction left it, the second handle is a new one, and it has
    a sink with the same settings as the first. *)
Theorem second_construction_changes_nothing w p c logLevel1 logLevel2 :
  configs w !! p = Some c ->
  exists zl1 w1 zl2 w2 wr,
    NewZapLogger (Some p) logLevel1 w = Returns (Some zl1) w1 /\
    NewZapLogger (Some p) logLevel2 w1 = Returns (Some zl2) w2 /\
    zl1 <> zl2 /\
    configs w2 = configs w1 /\
    get_handle (Some zl1) logWriter w2 = Returns (Some wr) w2 /\
    get_handle (Some zl2) logWriter w2 = Returns (Some wr) w2.
Proof.
  intros Hp.
  pose proof (NewZapLogger_Some w p c logLevel1 Hp) as H1.
  set (w1 := mkWorld _ _ _ _ _) in H1.
  assert (Hp1 : configs w1 !! p = Some (constructed_config c))
    by apply lookup_insert_eq.
  pose proof (NewZapLogger_Some w1 p _ logLevel2 Hp1) as H2.
  destruct (constructed_config_idem c) as (Hcc & Hcw).
  rewrite Hcc, Hcw in H2.
  assert (Hne : fresh (dom (handles w)) <> fresh (dom (handles w1))).
  { intros Heq. pose proof (fresh_handle_None w1) as Hf.
    rewrite <- Heq in Hf. subst w1. simpl in Hf.
    rewrite lookup_insert_eq in Hf. discriminate. }
  eexists _, _, _, _, (constructed_writer c).
  split; [exact H1|]. split; [exact H2|]. split; [exact Hne|].
  split; [subst w1; simpl; apply insert_insert_eq|].
  split.
  - apply (get_handle_Some logWriter _ _
             (built_handle (constructed_writer c) logLevel1 (Some p))).
    simpl. rewrite lookup_insert_ne by (intros Heq; now apply Hne).
    apply lookup_insert_eq.
  - apply (get_handle_Some logWriter _ _
             (built_handle (constructed_writer c) logLevel2 (Some p))).
    apply lookup_insert_eq.
Qed.

Lemma second_construction_changes_nothing_witness :
  exists zl1 w1 zl2 w2,
    NewZapLogger (Some 2%positive) zap_DebugLevel example_world
      = Returns (Some zl1) w1 /\
    NewZapLogger (Some 2%positive) (Level_Enabled ErrorLevel) w1
      = Returns (Some zl2) w2 /\
    configs w2 = configs w1.
Proof.
  assert (Hp : configs example_world !! 2%positive = Some example_config)
    by (vm_compute; reflexivity).
  destruct (second_construction_changes_nothing example_world 2%positive
              example_config zap_DebugLevel (Level_Enabled ErrorLevel) Hp)
    as (zl1 & w1 & zl2 & w2 & wr & H1 & H2 & _ & Hc & _).
  exists zl1, w1, zl2, w2. auto.
Defined.

(** ** What an emission call hands to the sink *)






(** ** The adapter's entry *)




(** ** The handle *)

(** X14: the two front ends of a constructed handle are two views of one
    core.  What [GetZapLogger] and [GetSugarLogger] return write to the same
    sink, the handle's [logWriter], under the same threshold, the one given
    to the constructor, with the console encoder of [getEncoder] (ISO-8601
    time, capital level names); the logger records the caller, skipping one
    frame, and is not in development mode. *)
Theorem handle_front_ends_share_core w p c logLevel :
  configs w !! p = Some c ->
  exists zl w' g s wr,
    NewZapLogger (Some p) logLevel w = Returns zl w' /\
    ZapLogger_GetZapLogger zl w' = Returns (Some g) w' /\
    ZapLogger_GetSugarLogger zl w' = Returns (Some s) w' /\
    get_handle zl logWriter w' = Returns (Some wr) w' /\
    core (base s) = core g /\
    core_out (core g) = Some wr /\
    core_enab (core g) = logLevel /\
    core_enc (core g) = ConsoleEncoder ISO8601TimeEncoder CapitalLevelEncoder /\
    addCaller g = true /\ callerSkip g = 1%nat /\ development g = false.
Proof.
  intros Hp. eexists _, _, _, _, _.
  split; [apply NewZapLogger_Some; exact Hp|].
  unfold ZapLogger_GetZapLogger, ZapLogger_GetSugarLogger, get_handle. simpl.
  rewrite lookup_insert_eq. simpl. repeat split.
Qed.

Lemma handle_front_ends_share_core_witness :
  exists zl w' g s,
    NewZapLogger (Some 2%positive) (Level_Enabled WarnLevel) example_world
      = Returns zl w' /\
    ZapLogger_GetZapLogger zl w' = Returns (Some g) w' /\
    ZapLogger_GetSugarLogger zl w' = Returns (Some s) w' /\
    core (base s) = core g.
Proof.
  assert (Hp : configs example_world !! 2%positive = Some example_config)
    by (vm_compute; reflexivity).
  destruct (handle_front_ends_share_core example_world 2%positive example_config
              (Level_Enabled WarnLevel) Hp)
    as (zl & w' & g & s & wr & Hn & Hg & Hs & _ & Hc & _).
  exists zl, w', g, s. auto.
Defined.

(** X13: the sink is built from the values the struct holds at
    construction.  After a logger was constructed for a path destination,
    a caller that assigns a new struct through its pointer changes what the
    handle's configuration pointer reads, but not the handle's sink: the
    rotating file sink keeps the path and the thresholds it was built with. *)
Theorem sink_keeps_settings w p c logLevel filename c2 :
  configs w !! p = Some c ->
  FilenameOrIoWriter c = AnyString filename ->
  exists zl w1 w2 sink,
    NewZapLogger (Some p) logLevel w = Returns zl w1 /\
    get_handle zl logWriter w1 = Returns (Some sink) w1 /\
    put_config (Some p) (fun _ => c2) w1 = Returns tt w2 /\
    get_handle zl logWriter w2 = Returns (Some sink) w2 /\
    (exists s, ZapLogger_GetSugarLogger zl w2 = Returns (Some s) w2 /\
               core_out (core (base s)) = Some sink) /\
    (exists cp, get_handle zl config w2 = Returns cp w2 /\
                get_config cp (fun x => x) w2 = Returns c2 w2) /\
    sink = LumberjackLogger filename
             (if FileMaxSize c <=? 0 then 100 else FileMaxSize c)
             (if FileMaxBackup c <=? 0 then 3 else FileMaxBackup c)
             (if FileMaxAge c <=? 0 then 30 else FileMaxAge c)
             (FileCompress c).
Proof.
  intros Hp Hd. eexists _, _, _, (constructed_writer c).
  split; [apply NewZapLogger_Some; exact Hp|].
  split; [unfold get_handle; simpl; now rewrite lookup_insert_eq|].
  split; [apply put_config_Some, lookup_insert_eq|].
  split; [unfold get_handle; simpl; now rewrite lookup_insert_eq|].
  split; [eexists; unfold ZapLogger_GetSugarLogger, get_handle; simpl;
          rewrite lookup_insert_eq; split; reflexivity|].
  split; [exists (Some p); unfold get_handle, get_config; simpl;
          now rewrite !lookup_insert_eq|].
  unfold constructed_writer. cbv zeta. rewrite default_thresholds_dest, Hd.
  destruct (default_thresholds_fields c) as (-> & -> & -> & ->). reflexivity.
Qed.

Lemma sink_keeps_settings_witness :
  exists zl w1 w2,
    NewZapLogger (Some 1%positive) zap_DebugLevel
      (with_configs {[1%positive := mkLogConfig (AnyString "app.log") 0 7 0 false]}
         World_zero) = Returns zl w1 /\
    put_config (Some 1%positive) (fun _ => LogConfig_zero) w1 = Returns tt w2 /\
    get_handle zl logWriter w2
    = Returns (Some (LumberjackLogger "app.log" 100 7 30 false)) w2.
Proof.
  destruct (sink_keeps_settings
              (with_configs {[1%positive := mkLogConfig (AnyString "app.log") 0 7 0 false]}
                 World_zero)
              1%positive (mkLogConfig (AnyString "app.log") 0 7 0 false)
              zap_DebugLevel "app.log" LogConfig_zero)
    as (zl & w1 & w2 & sink & Hn & _ & Hput & Hget & _ & _ & Hsink).
  - vm_compute. reflexivity.
  - reflexivity.
  - exists zl, w1, w2. split; [exact Hn|]. split; [exact Hput|].
    rewrite Hget, Hsink. reflexivity.
Defined.

(** ** Methods of a handle *)

(** X15: a handle that the constructor did not complete cannot log.  A
    method called on a nil handle, or on a handle that still is the zero
    value of [ZapLogger], panics with a nil dereference and hands nothing to
    any sink; the accessors of a zero-value handle return nil engines. *)
Theorem zero_handle_cannot_log `{External} f template args w :
  method_call f None template args w = Panics nil_dereference w /\
  (forall l, handles w !! l = Some ZapLogger_zero ->
     method_call f (Some l) template args w = Panics nil_dereference w /\
     ZapLogger_GetSugarLogger (Some l) w = Returns None w /\
     ZapLogger_GetZapLogger (Some l) w = Returns None w).
Proof.
  split.
  - rewrite method_call_log. reflexivity.
  - intros l Hl. rewrite method_call_log.
    rewrite (bind_Returns _ _ _ _ _ (get_handle_Some sugarLogger _ _ _ Hl)).
    unfold ZapLogger_GetSugarLogger, ZapLogger_GetZapLogger.
    rewrite !(get_handle_Some _ _ _ _ Hl). repeat split.
Qed.


